(** * IntelliFace face-rec-service: a shallow embedding of [app.py]

    The service is a thin Flask layer around three external libraries:
    Pillow (image decoding), DeepFace (face detection, embedding and
    verification) and the Python standard library ([json], [base64],
    [traceback]).  The embedding keeps the handlers as they are written
    and takes the libraries as an interface ([Backend]): every library
    call returns either a value or a raised Python exception, and every
    call and every write to stdout/stderr is recorded in an event log. *)

From Stdlib Require Import ZArith String Ascii Strings.Byte Floats.SpecFloat.
From stdpp Require Import base option list gmap strings.

Set Warnings "-register-all".
Set Default Proof Using "Type".

Local Open Scope string_scope.
Local Open Scope Z_scope.
Local Open Scope list_scope.

(** ** Python values, exceptions and effects *)

Module Py.

Abbreviation bytes := (list byte).

#[global] Instance byte_eq_decision : EqDecision byte := Byte.byte_eq_dec.

(** What [json.loads] produces and [jsonify] consumes.  A Python float
    is an IEEE 754 double, kept as sign, mantissa and exponent. *)
Inductive pyvalue : Type :=
  | PyNone
  | PyBool (b : bool)
  | PyInt (z : Z)
  | PyFloat (f : spec_float)
  | PyStr (s : string)
  | PyList (l : list pyvalue)
  | PyDict (d : gmap string pyvalue).

Abbreviation pydict := (gmap string pyvalue).

(** The part of the exception hierarchy the service can meet.
    [binascii_Error] and [JSONDecodeError] derive from [ValueError],
    Pillow's [UnidentifiedImageError] from [OSError]; [SystemExit] and
    [KeyboardInterrupt] are not [Exception]s. *)
Inductive ExcClass : Type :=
  | BaseException | SystemExit | KeyboardInterrupt | Exception
  | AttributeError | LookupError | IndexError | KeyError
  | OSError | UnidentifiedImageError
  | RuntimeError | RecursionError | TypeError
  | ValueError | binascii_Error | JSONDecodeError.

#[global] Instance ExcClass_eq_dec : EqDecision ExcClass.
Proof. solve_decision. Defined.

Definition base (c : ExcClass) : option ExcClass :=
  match c with
  | BaseException => None
  | SystemExit | KeyboardInterrupt | Exception => Some BaseException
  | AttributeError | LookupError | OSError | RuntimeError
  | TypeError | ValueError => Some Exception
  | IndexError | KeyError => Some LookupError
  | UnidentifiedImageError => Some OSError
  | RecursionError => Some RuntimeError
  | binascii_Error | JSONDecodeError => Some ValueError
  end.

Fixpoint issubclass_upto (depth : nat) (c d : ExcClass) : bool :=
  if bool_decide (c = d) then true
  else match depth, base c with
       | S n, Some b => issubclass_upto n b d
       | _, _ => false
       end.

(** The hierarchy above is three levels deep below [BaseException]. *)
Definition issubclass (c d : ExcClass) : bool := issubclass_upto 3 c d.

Definition class_name (c : ExcClass) : string :=
  match c with
  | BaseException => "BaseException" | SystemExit => "SystemExit"
  | KeyboardInterrupt => "KeyboardInterrupt" | Exception => "Exception"
  | AttributeError => "AttributeError" | LookupError => "LookupError"
  | IndexError => "IndexError" | KeyError => "KeyError"
  | OSError => "OSError"
  | UnidentifiedImageError => "PIL.UnidentifiedImageError"
  | RuntimeError => "RuntimeError" | RecursionError => "RecursionError"
  | TypeError => "TypeError" | ValueError => "ValueError"
  | binascii_Error => "binascii.Error"
  | JSONDecodeError => "json.decoder.JSONDecodeError"
  end.

(** A raised exception: its class, [str(e)] and the stack frames that
    [traceback] would print. *)
Record PyExc : Type := mkExc {
  exc_class : ExcClass;
  exc_str : string;
  exc_frames : list string
}.

Definition isinstance (e : PyExc) (c : ExcClass) : bool :=
  issubclass (exc_class e) c.
#[global] Arguments isinstance : simpl never.

(** What [traceback.print_exc()] writes to stderr. *)
Definition format_exc (e : PyExc) : list string :=
  "Traceback (most recent call last):" :: exc_frames e
    ++ [class_name (exc_class e) +:+ ": " +:+ exc_str e].

Inductive outcome (A : Type) : Type :=
  | Ret (a : A)
  | Raise (e : PyExc).
Arguments Ret {A} a.
Arguments Raise {A} e.

(** Decoded images.  [im_mode] is Pillow's mode string; the array made
    from an image keeps it as the order of its channel axis. *)
Record PILImage : Type := mkImage {
  im_mode : string;
  im_width : nat;
  im_height : nat;
  im_data : bytes
}.

Record ndarray : Type := mkArray {
  nd_height : nat;
  nd_width : nat;
  nd_channels : string;
  nd_data : bytes
}.

(** [np.array(pil_img)] *)
Definition np_array (im : PILImage) : ndarray :=
  {| nd_height := im_height im; nd_width := im_width im;
     nd_channels := im_mode im; nd_data := im_data im |}.

(** Calls that leave the service, with the arguments they carry. *)
Inductive Call : Type :=
  | C_build_model (model_name : string)
  | C_b64decode (s : string)
  | C_Image_open (b : bytes)
  | C_convert (mode : string) (im : PILImage)
  | C_json_loads (s : string)
  | C_represent (img_path : ndarray) (model_name : string)
                (enforce_detection : bool) (detector_backend : string)
  | C_verify (img1_path : ndarray) (img2_path : pyvalue)
             (model_name detector_backend distance_metric : string)
             (enforce_detection : bool).

Inductive Event : Type :=
  | Stdout (line : string)
  | Stderr (lines : list string)
  | Called (c : Call).

(** Computations: the events emitted so far, and a value or a raised
    exception. *)
Definition M (A : Type) : Type := list Event * outcome A.

Definition ret {A} (a : A) : M A := ([], Ret a).
Definition raise {A} (e : PyExc) : M A := ([], Raise e).
Definition emit (ev : Event) : M unit := ([ev], Ret tt).

Definition bind {A B} (m : M A) (k : A → M B) : M B :=
  match m with
  | (log, Ret a) => let '(log', r) := k a in (log ++ log', r)
  | (log, Raise e) => (log, Raise e)
  end.

(** [try: body  except ...: handler]; [handler] returns [None] for an
    exception no clause matches, which then keeps propagating. *)
Definition try_except {A} (body : M A) (handler : PyExc → option (M A)) : M A :=
  match body with
  | (log, Ret a) => (log, Ret a)
  | (log, Raise e) =>
      match handler e with
      | Some h => let '(log', r) := h in (log ++ log', r)
      | None => (log, Raise e)
      end
  end.

(** An external call: logged, then its outcome. *)
Definition call {A} (c : Call) (r : outcome A) : M A := ([Called c], r).

Definition events {A} (m : M A) : list Event := m.1.
Definition result {A} (m : M A) : outcome A := m.2.

Definition print (line : string) : M unit := emit (Stdout line).
Definition traceback_print_exc (e : PyExc) : M unit := emit (Stderr (format_exc e)).

(** [needle in hay] on strings *)
Fixpoint str_contains (needle hay : string) : bool :=
  if String.prefix needle hay then true
  else match hay with
       | EmptyString => false
       | String _ rest => str_contains needle rest
       end.

(** [s.split(sep)] for a one-character separator *)
Fixpoint str_split (sep : ascii) (s : string) : list string :=
  match s with
  | EmptyString => [EmptyString]
  | String c rest =>
      if Ascii.eqb c sep then EmptyString :: str_split sep rest
      else match str_split sep rest with
           | piece :: pieces => String c piece :: pieces
           | [] => [String c EmptyString]
           end
  end.

(** [l[i]] *)
Definition list_getitem {A} (l : list A) (i : nat) : M A :=
  match l !! i with
  | Some a => ret a
  | None => raise (mkExc IndexError "list index out of range" [])
  end.

(** [d[k]] *)
Definition dict_getitem {A} (d : gmap string A) (k : string) : M A :=
  match d !! k with
  | Some a => ret a
  | None => raise (mkExc KeyError ("'" +:+ k +:+ "'") [])
  end.

(** [k in d] *)
Definition dict_contains {A} (k : string) (d : gmap string A) : bool :=
  bool_decide (is_Some (d !! k)).

End Py.
Export Py.

(** [M] with stdpp's monad notations: [x ← m; k] and [m;; k]. *)
#[global] Instance M_ret : MRet M := @Py.ret.
#[global] Instance M_bind : MBind M := λ A B k m, Py.bind m k.

(** ** The libraries behind the service *)

(** Pillow, the standard library and DeepFace, each call returning a value
    or raising.  The one law is Pillow's: [convert(mode)] returns an image
    in that mode.  A [Backend] is the libraries as they answer during one
    call of a handler; what changes from one call to the next (the text
    of Pillow's exception names the request's own buffer object) shows as
    two backends, related by [same_libraries] below. *)
Class Backend : Type := {
  base64_b64decode : string → outcome bytes;
  Image_open : bytes → outcome PILImage;
  Image_convert : string → PILImage → outcome PILImage;
  json_loads : string → outcome pyvalue;
  repr_dict : pydict → string;
  DeepFace_build_model : string → outcome unit;
  DeepFace_represent : ndarray → string → bool → string → outcome (list pydict);
  DeepFace_verify :
    ndarray → pyvalue → string → string → string → bool → outcome pydict;
  Image_convert_mode : ∀ mode im im',
    Image_convert mode im = Ret im' → im_mode im' = mode
}.

(** ** app.py *)

Module App.
Section App.
Context {lib : Backend}.

Record Request : Type := mkRequest {
  files : gmap string bytes;
  form : gmap string string
}.

Record Response : Type := mkResponse {
  body : pydict;
  status : Z
}.

(** [jsonify(k1=v1, ...)] *)
Definition jsonify (kwargs : list (string * pyvalue)) : pydict :=
  list_to_map kwargs.

Definition MODEL_NAME : string := "SFace".
Definition DETECTOR_BACKEND : string := "retinaface".
Definition DISTANCE_METRIC : string := "cosine".

(** [np.array(Image.open(BytesIO(img_bytes)).convert("RGB"))], the
    expression both handlers and [b64_to_numpy] decode with (lines 58, 93
    and 44 to 45). *)
Definition open_rgb_array (img_bytes : bytes) : M ndarray :=
  pil_img ← call (C_Image_open img_bytes) (Image_open img_bytes);
  rgb ← call (C_convert "RGB" pil_img) (Image_convert "RGB" pil_img);
  mret (np_array rgb).

Definition b64_to_numpy (b64_string : string) : M ndarray :=
  b64_string ← (if str_contains "data:image" b64_string
                then list_getitem (str_split "," b64_string) 1
                else mret b64_string);
  img_bytes ← call (C_b64decode b64_string) (base64_b64decode b64_string);
  open_rgb_array img_bytes.

(** The [try] block of [generate_embedding]. *)
Definition generate_embedding_try (request : Request) : M Response :=
  match files request !! "face" with
  | Some img_bytes =>
      np_img ← open_rgb_array img_bytes;
      embedding_objs ←
        call (C_represent np_img MODEL_NAME true DETECTOR_BACKEND)
             (DeepFace_represent np_img MODEL_NAME true DETECTOR_BACKEND);
      obj ← list_getitem embedding_objs 0;
      embedding ← dict_getitem obj "embedding";
      mret (mkResponse (jsonify [("embedding", embedding)]) 200)
  | None =>
      mret (mkResponse
              (jsonify [("error", PyStr "No image file provided.")]) 400)
  end.

(** Its one clause, [except Exception as e]. *)
Definition generate_embedding_except (e : PyExc) : option (M Response) :=
  if isinstance e Exception then Some (
    traceback_print_exc e;;
    mret (mkResponse
            (jsonify [("error", PyStr ("An error occurred: " +:+ exc_str e))])
            500))
  else None.

Definition generate_embedding (request : Request) : M Response :=
  try_except (generate_embedding_try request) generate_embedding_except.

(** The [try] block of [compare_faces]. *)
Definition compare_faces_try (request : Request) : M Response :=
  if negb (dict_contains "face" (files request)) then
    mret (mkResponse
            (jsonify [("error", PyStr "No face image provided for comparison.")])
            400)
  else
    match form request !! "stored_embedding" with
    | None | Some "" =>
        (* [not stored_embedding_json]: [None] and [''] are falsy *)
        mret (mkResponse
                (jsonify [("error", PyStr "No stored embedding provided.")]) 400)
    | Some stored_embedding_json =>
        img_bytes ← dict_getitem (files request) "face";
        np_img_to_verify ← open_rgb_array img_bytes;
        stored_embedding ←
          call (C_json_loads stored_embedding_json)
               (json_loads stored_embedding_json);
        result ←
          call (C_verify np_img_to_verify stored_embedding MODEL_NAME
                         DETECTOR_BACKEND DISTANCE_METRIC true)
               (DeepFace_verify np_img_to_verify stored_embedding MODEL_NAME
                                DETECTOR_BACKEND DISTANCE_METRIC true);
        is_match ← dict_getitem result "verified";
        print ("Comparison Result: " +:+ repr_dict result);;
        mret (mkResponse (jsonify [("is_match", is_match)]) 200)
    end.

(** Its clauses, in order: [except ValueError as e], then
    [except Exception as e]. *)
Definition compare_faces_except (e : PyExc) : option (M Response) :=
  if isinstance e ValueError then Some (
    mret (mkResponse
            (jsonify [("error", PyStr ("Could not process image: " +:+ exc_str e));
                      ("is_match", PyBool false)])
            400))
  else if isinstance e Exception then Some (
    traceback_print_exc e;;
    mret (mkResponse
            (jsonify [("error",
                       PyStr ("An internal error occurred during comparison: "
                              +:+ exc_str e));
                      ("is_match", PyBool false)])
            500))
  else None.

Definition compare_faces (request : Request) : M Response :=
  try_except (compare_faces_try request) compare_faces_except.

(** *** Module start-up

    The module body runs top to bottom: the model preload, the two route
    registrations, then [app.run].  Only a process that has reached
    [Serving] answers anything. *)

Inductive Endpoint : Type := EP_generate_embedding | EP_compare_faces.

Definition view_function (ep : Endpoint) : Request → M Response :=
  match ep with
  | EP_generate_embedding => generate_embedding
  | EP_compare_faces => compare_faces
  end.

Inductive Stage : Type :=
  | AtPreload
  | AtRouteGenerate
  | AtRouteCompare
  | AtRun
  | Serving
  | Terminated (e : PyExc).

Record Process : Type := mkProcess {
  stage : Stage;
  url_map : gmap string Endpoint;
  console : list Event
}.

(** [app = Flask(__name__)], with none of the module's own routes
    registered yet.  [url_map] lists the routes [app.py] registers; the
    rule Flask adds by itself for static files is not in it. *)
Definition fresh_process : Process := mkProcess AtPreload ∅ [].

(** The [try]/[except] around [DeepFace.build_model]. *)
Definition preload : M unit :=
  try_except
    (print "Loading face recognition model...";;
     call (C_build_model MODEL_NAME) (DeepFace_build_model MODEL_NAME);;
     print "Model loaded successfully.")
    (λ e,
       if isinstance e Exception
       then Some (print ("Error loading model on startup: " +:+ exc_str e))
       else None).

Definition step (p : Process) : option Process :=
  match stage p with
  | AtPreload =>
      let '(log, r) := preload in
      Some (mkProcess (match r with
                       | Ret _ => AtRouteGenerate
                       | Raise e => Terminated e
                       end)
                      (url_map p) (console p ++ log))
  | AtRouteGenerate =>
      Some (mkProcess AtRouteCompare
              (<["/generate-embedding" := EP_generate_embedding]> (url_map p))
              (console p))
  | AtRouteCompare =>
      Some (mkProcess AtRun
              (<["/compare-faces" := EP_compare_faces]> (url_map p))
              (console p))
  | AtRun => Some (mkProcess Serving (url_map p) (console p))
  | Serving | Terminated _ => None
  end.

Fixpoint run (fuel : nat) (p : Process) : Process :=
  match fuel with
  | O => p
  | S n => match step p with
           | Some p' => run n p'
           | None => p
           end
  end.

(** Four module-level steps lead from a fresh process to [app.run]. *)
Definition startup : Process := run 4 fresh_process.

Inductive reachable : Process → Prop :=
  | reachable_fresh : reachable fresh_process
  | reachable_step p p' : reachable p → step p = Some p' → reachable p'.

(** A POST to [path] as far as the module's handlers see it: nothing
    runs unless the process serves and the path is one the module
    routes, otherwise the view function runs.  What Flask answers by
    itself (other paths, other methods, static files) is outside the
    model. *)
Definition serve (p : Process) (path : string) (request : Request)
  : option (M Response) :=
  match stage p with
  | Serving => (λ ep, view_function ep request) <$> url_map p !! path
  | _ => None
  end.

End App.
#[global] Arguments open_rgb_array : simpl never.
End App.

Export App.

(** ** A concrete backend for running the handlers

    Small tables that stand for the libraries on a handful of payloads,
    with the exception classes the libraries raise there: Pillow raises
    [UnidentifiedImageError] on bytes it cannot identify, [json.loads]
    raises [JSONDecodeError], and DeepFace raises [ValueError] when
    [enforce_detection] is set and no face is found, or when it is handed
    something that is not an embedding of the model's length (two here,
    to keep the tables small). *)

Module Fixture.

(** A 1x1 PNG holding one black RGB pixel. *)
Definition black_pixel_png : bytes :=
  [x89; x50; x4e; x47; x0d; x0a; x1a; x0a; x00; x00; x00; x0d; x49; x48;
   x44; x52; x00; x00; x00; x01; x00; x00; x00; x01; x08; x02; x00; x00;
   x00; x90; x77; x53; xde; x00; x00; x00; x0c; x49; x44; x41; x54; x78;
   x9c; x63; x60; x60; x60; x00; x00; x00; x04; x00; x01; xf6; x17; x38;
   x55; x00; x00; x00; x00; x49; x45; x4e; x44; xae; x42; x60; x82].

(** A 2x1 greyscale PNG (pixels 127 and 128); in the DeepFace tables
    below it stands for a portrait photograph showing two faces. *)
Definition portrait_png : bytes :=
  [x89; x50; x4e; x47; x0d; x0a; x1a; x0a; x00; x00; x00; x0d; x49; x48;
   x44; x52; x00; x00; x00; x02; x00; x00; x00; x01; x08; x00; x00; x00;
   x00; xd1; x49; x20; x56; x00; x00; x00; x0b; x49; x44; x41; x54; x78;
   x9c; x63; xa8; x6f; x00; x00; x01; x81; x01; x00; xd3; xb7; xbf; x54;
   x00; x00; x00; x00; x49; x45; x4e; x44; xae; x42; x60; x82].

Definition black_pixel : PILImage := mkImage "RGB" 1 1 [x00; x00; x00].
Definition portrait : PILImage := mkImage "L" 2 1 [x7f; x80].

(** The portrait once converted to RGB and turned into an array. *)
Definition portrait_rgb : ndarray :=
  np_array (mkImage "RGB" 2 1 [x7f; x7f; x7f; x80; x80; x80]).

Definition no_face : PyExc :=
  mkExc ValueError
    "Face could not be detected in numpy array. Please confirm that the picture is a face photo or consider to set enforce_detection param to False."
    ["  File deepface/modules/detection.py, in extract_faces"].

Definition cannot_identify : PyExc :=
  mkExc UnidentifiedImageError "cannot identify image file"
    ["  File PIL/Image.py, in open"].

(** The double [2^k], negated when [negative]: a 53-bit mantissa with
    only its top bit set. *)
Definition pow2 (negative : bool) (k : Z) : spec_float :=
  S754_finite negative 4503599627370496 (k - 52).

(** [[0.25, 0.5]] and [[-1.0, 0.125]] *)
Definition first_face : pyvalue :=
  PyList [PyFloat (pow2 false (-2)); PyFloat (pow2 false (-1))].
Definition second_face : pyvalue :=
  PyList [PyFloat (pow2 true 0); PyFloat (pow2 false (-3))].

Definition embedding_obj (embedding : pyvalue) : pydict :=
  {[ "embedding" := embedding; "face_confidence" := PyFloat (pow2 false (-1)) ]}.

Definition is_black_pixel (img : ndarray) : bool :=
  bool_decide (nd_data img = [x00; x00; x00]).

(** [build] is what [DeepFace.build_model] does in this process. *)
#[refine] Definition backend (build : outcome unit) : Backend := {|
  base64_b64decode s :=
    if bool_decide (s = "AAAA") then Ret [x00; x00; x00]
    else Raise (mkExc binascii_Error "Incorrect padding" []);
  Image_open b :=
    if bool_decide (b = black_pixel_png) then Ret black_pixel
    else if bool_decide (b = portrait_png) then Ret portrait
    else Raise cannot_identify;
  Image_convert mode im :=
    Ret (mkImage mode (im_width im) (im_height im)
           (if bool_decide (im_mode im = "L" ∧ mode = "RGB")
            then b ← im_data im; [b; b; b]
            else im_data im));
  json_loads s :=
    if bool_decide (s = "[0.25, 0.5]") then Ret first_face
    else if bool_decide (s = "[0.25]")
         then Ret (PyList [PyFloat (pow2 false (-2))])
    else if bool_decide (s = "{}") then Ret (PyDict ∅)
    else Raise (mkExc JSONDecodeError
                  "Expecting value: line 1 column 1 (char 0)" []);
  repr_dict d :=
    match d !! "verified" with
    | Some (PyBool true) => "{'verified': True}"
    | _ => "{'verified': False}"
    end;
  DeepFace_build_model _ := build;
  DeepFace_represent img _ _ _ :=
    if is_black_pixel img then Raise no_face
    else Ret [embedding_obj first_face; embedding_obj second_face];
  DeepFace_verify img1 img2 _ _ _ _ :=
    if is_black_pixel img1 then Raise no_face
    else match img2 with
         | PyList l =>
             if bool_decide (length l = 2%nat)
             then Ret {[ "verified" := PyBool true ]}
             else Raise (mkExc ValueError
                           "embeddings of SFace should have 2 dimensions" [])
         | _ => Raise (mkExc ValueError "img must be numpy array or str" [])
         end
|}.
Proof. intros mode im im' [= <-]. reflexivity. Defined.

(** The model loads. *)
Definition warm : Backend := backend (Ret tt).

(** The model weights cannot be read at start-up. *)
Definition cold : Backend :=
  backend (Raise (mkExc OSError "Unable to open SFace weights" [])).

Definition upload (b : bytes) : Request := mkRequest {[ "face" := b ]} ∅.

Definition upload_with (b : bytes) (stored_embedding : string) : Request :=
  mkRequest {[ "face" := b ]} {[ "stored_embedding" := stored_embedding ]}.

End Fixture.

(** ** Vocabulary for the statements *)

(** The text of [s] before its first [sep], all of [s] when it has none. *)
Fixpoint up_to (sep : ascii) (s : string) : string :=
  match s with
  | EmptyString => EmptyString
  | String c rest =>
      if Ascii.eqb c sep then EmptyString else String c (up_to sep rest)
  end.

(** The specification's stripping: [s] without everything up to and
    including its first [sep]; nothing when [s] has no [sep]. *)
Fixpoint after_first (sep : ascii) (s : string) : option string :=
  match s with
  | EmptyString => None
  | String c rest => if Ascii.eqb c sep then Some rest else after_first sep rest
  end.

(** Lines 43 to 45 of [b64_to_numpy]: base64-decode, open, convert. *)
Definition decode_base64 {lib : Backend} (payload : string) : M ndarray :=
  img_bytes ← call (C_b64decode payload) (base64_b64decode payload);
  open_rgb_array img_bytes.

(** Lines 93 to 110 of [compare_faces]: what runs once both inputs are
    there and the upload has been read. *)
Definition verify_upload {lib : Backend} (img_bytes : bytes) (stored_embedding_json : string)
  : M Response :=
  np_img_to_verify ← open_rgb_array img_bytes;
  stored_embedding ←
    call (C_json_loads stored_embedding_json) (json_loads stored_embedding_json);
  result ←
    call (C_verify np_img_to_verify stored_embedding MODEL_NAME
                   DETECTOR_BACKEND DISTANCE_METRIC true)
         (DeepFace_verify np_img_to_verify stored_embedding MODEL_NAME
                          DETECTOR_BACKEND DISTANCE_METRIC true);
  is_match ← dict_getitem result "verified";
  print ("Comparison Result: " +:+ repr_dict result);;
  mret (mkResponse (jsonify [("is_match", is_match)]) 200).

(** The [try] block behind each route. *)
Definition try_block {lib : Backend} (ep : Endpoint) : Request → M Response :=
  match ep with
  | EP_generate_embedding => generate_embedding_try
  | EP_compare_faces => compare_faces_try
  end.

(** The handler returns (nothing propagates) a response with this status
    and a non-empty ["error"] message. *)
Definition error_reply (m : M Response) (st : Z) : Prop :=
  ∃ resp msg,
    result m = Ret resp ∧ status resp = st
    ∧ body resp !! "error" = Some (PyStr msg) ∧ msg ≠ "".

(** The messages of the three input checks, and the prefixes the
    [except] clauses put before [str(e)]. *)
Definition fixed_messages : list string :=
  ["No image file provided.";
   "No face image provided for comparison.";
   "No stored embedding provided."].

Definition message_prefixes : list string :=
  ["An error occurred: ";
   "Could not process image: ";
   "An internal error occurred during comparison: "].

(** The library calls of a log, in the order they were made. *)
Definition calls (log : list Event) : list Call :=
  omap (λ ev, match ev with Called c => Some c | _ => None end) log.

(** The key a 200 reply of each endpoint carries. *)
Definition success_key (ep : Endpoint) : string :=
  match ep with
  | EP_generate_embedding => "embedding"
  | EP_compare_faces => "is_match"
  end.

(** What a library call made while answering [req] on [ep] may look
    like: the upload opened, a conversion to RGB, the stored embedding
    parsed, and DeepFace called on an RGB array under the module's
    constants with detection enforced. *)
Definition expected_call {lib : Backend} (ep : Endpoint) (req : Request) (c : Call)
  : Prop :=
  match c with
  | C_Image_open b => files req !! "face" = Some b
  | C_convert mode _ => mode = "RGB"
  | C_json_loads s =>
      ep = EP_compare_faces ∧ form req !! "stored_embedding" = Some s
  | C_represent img model enforce detector =>
      ep = EP_generate_embedding ∧ nd_channels img = "RGB"
      ∧ model = MODEL_NAME ∧ enforce = true ∧ detector = DETECTOR_BACKEND
  | C_verify img1 img2 model detector metric enforce =>
      ep = EP_compare_faces ∧ nd_channels img1 = "RGB"
      ∧ (∃ s, form req !! "stored_embedding" = Some s ∧ json_loads s = Ret img2)
      ∧ model = MODEL_NAME ∧ detector = DETECTOR_BACKEND
      ∧ metric = DISTANCE_METRIC ∧ enforce = true
  | C_build_model _ | C_b64decode _ => False
  end.


(** The same library call answered at two different times: the same
    value, or an exception of the same class, whose text may differ. *)
Definition same_outcome {A} (o1 o2 : outcome A) : Prop :=
  match o1, o2 with
  | Ret a1, Ret a2 => a1 = a2
  | Raise e1, Raise e2 => exc_class e1 = exc_class e2
  | _, _ => False
  end.

(** The libraries behind two calls of [generate_embedding] in one
    process: Pillow and the embedder answer alike, up to the text of
    their exceptions. *)
Definition same_libraries (lib1 lib2 : Backend) : Prop :=
  (∀ b, same_outcome (@Image_open lib1 b) (@Image_open lib2 b))
  ∧ (∀ im, same_outcome (@Image_convert lib1 "RGB" im)
                        (@Image_convert lib2 "RGB" im))
  ∧ (∀ img,
       same_outcome
         (@DeepFace_represent lib1 img MODEL_NAME true DETECTOR_BACKEND)
         (@DeepFace_represent lib2 img MODEL_NAME true DETECTOR_BACKEND)).

(** The backend of [Fixture.warm] at a later call: Pillow's exception now
    names another buffer object. *)
Definition later : Backend := {|
  base64_b64decode := @base64_b64decode Fixture.warm;
  Image_open b :=
    match @Image_open Fixture.warm b with
    | Ret im => Ret im
    | Raise e =>
        Raise (mkExc (exc_class e)
                 (exc_str e +:+ " <_io.BytesIO object at 0x7f3a5c1b2e50>")
                 (exc_frames e))
    end;
  Image_convert := @Image_convert Fixture.warm;
  json_loads := @json_loads Fixture.warm;
  repr_dict := @repr_dict Fixture.warm;
  DeepFace_build_model := @DeepFace_build_model Fixture.warm;
  DeepFace_represent := @DeepFace_represent Fixture.warm;
  DeepFace_verify := @DeepFace_verify Fixture.warm;
  Image_convert_mode := @Image_convert_mode Fixture.warm
|}.

(** The backend of [Fixture.warm], except that opening an image is
    interrupted from the keyboard. *)
Definition interrupted : Backend := {|
  base64_b64decode := @base64_b64decode Fixture.warm;
  Image_open _ := Raise (mkExc KeyboardInterrupt "" []);
  Image_convert := @Image_convert Fixture.warm;
  json_loads := @json_loads Fixture.warm;
  repr_dict := @repr_dict Fixture.warm;
  DeepFace_build_model := @DeepFace_build_model Fixture.warm;
  DeepFace_represent := @DeepFace_represent Fixture.warm;
  DeepFace_verify := @DeepFace_verify Fixture.warm;
  Image_convert_mode := @Image_convert_mode Fixture.warm
|}.

(** The backend of [Fixture.warm], except that DeepFace finds no face
    object and returns a verification result without a verdict. *)
Definition degenerate : Backend := {|
  base64_b64decode := @base64_b64decode Fixture.warm;
  Image_open := @Image_open Fixture.warm;
  Image_convert := @Image_convert Fixture.warm;
  json_loads := @json_loads Fixture.warm;
  repr_dict := @repr_dict Fixture.warm;
  DeepFace_build_model := @DeepFace_build_model Fixture.warm;
  DeepFace_represent _ _ _ _ := Ret [];
  DeepFace_verify _ _ _ _ _ _ := Ret ∅;
  Image_convert_mode := @Image_convert_mode Fixture.warm
|}.

(** ** Properties *)

Section Strings.

(** The string helpers against what Python answers. *)
Example str_split_pieces : str_split "," "a,b,,c" = ["a"; "b"; ""; "c"].
Proof. reflexivity. Qed.

Example str_split_no_separator : str_split "," "abc" = ["abc"].
Proof. reflexivity. Qed.

Example str_split_empty : str_split "," "" = [""].
Proof. reflexivity. Qed.

Example str_contains_inside :
  str_contains "data:image" "url('data:image/png;base64,AAAA')" = true
  ∧ str_contains "data:image" "AAAA" = false
  ∧ str_contains "" "" = true.
Proof. by split_and!. Qed.

Example isinstance_follows_the_hierarchy :
  issubclass binascii_Error ValueError = true
  ∧ issubclass IndexError Exception = true
  ∧ issubclass RecursionError ValueError = false
  ∧ issubclass KeyboardInterrupt Exception = false
  ∧ issubclass ValueError JSONDecodeError = false.
Proof. by split_and!. Qed.

Lemma str_split_first sep s : str_split sep s !! 0%nat = Some (up_to sep s).
Proof.
  induction s as [|c rest IH]; cbn; [done|].
  destruct (Ascii.eqb c sep); [done|].
  destruct (str_split sep rest) as [|piece pieces]; cbn in *; congruence.
Qed.

Lemma str_split_second sep s :
  str_split sep s !! 1%nat = up_to sep <$> after_first sep s.
Proof.
  induction s as [|c rest IH]; cbn; [done|].
  destruct (Ascii.eqb c sep).
  - cbn. apply str_split_first.
  - pose proof (str_split_first sep rest) as Hfirst.
    destruct (str_split sep rest) as [|piece pieces]; cbn in *; congruence.
Qed.

Lemma up_to_no_sep sep s : after_first sep s = None → up_to sep s = s.
Proof.
  induction s as [|c rest IH]; cbn; [done|].
  destruct (Ascii.eqb c sep); [done|]. intros Hnone. by rewrite IH.
Qed.

End Strings.

(** Unfolds the monad down to pairs of a log and an outcome. *)
Ltac py_unfold :=
  unfold Py.list_getitem, Py.dict_getitem, Py.print, Py.traceback_print_exc,
    Py.emit, Py.call, Py.try_except, mbind, M_bind, mret, M_ret, Py.bind,
    Py.ret, Py.raise, Py.events, Py.result in *.

(** Case analysis on every library outcome the goal still depends on. *)
Ltac py_cases :=
  repeat (cbn in *; simplify_eq; try case_match); cbn in *; simplify_eq.

(** Closes a goal whose hypothesis puts an event into a log that does not
    list it. *)
Ltac not_logged Hin :=
  repeat (apply elem_of_cons in Hin as [?|Hin]; [done|]);
  by apply elem_of_nil in Hin.

(** Runs the handler in the goal and replaces its log by the events it
    emitted. *)
Ltac run_log :=
  match goal with
  | |- context [events ?m] =>
      let log := eval vm_compute in (events m) in
      change (events m) with log
  end.

Section Monad.

Lemma result_bind {A B} (m : M A) (k : A → M B) :
  result (m ≫= k) =
    match result m with Ret a => result (k a) | Raise e => Raise e end.
Proof. destruct m as [log [a|e]]; py_unfold; cbn; [|done]. by destruct (k a). Qed.

Lemma events_bind {A B} (m : M A) (k : A → M B) :
  events (m ≫= k) =
    match result m with
    | Ret a => events m ++ events (k a)
    | Raise _ => events m
    end.
Proof. destruct m as [log [a|e]]; py_unfold; cbn; [|done]. by destruct (k a). Qed.

Lemma ret_bind {A B} (a : A) (k : A → M B) : mret a ≫= k = k a.
Proof. py_unfold. by destruct (k a). Qed.

Lemma result_call {A} c (r : outcome A) : result (call c r) = r.
Proof. done. Qed.

Lemma events_call {A} c (r : outcome A) : events (call c r) = [Called c].
Proof. done. Qed.

Lemma result_try_except {A} (body : M A) handler :
  result (try_except body handler) =
    match result body with
    | Ret a => Ret a
    | Raise e => match handler e with
                 | Some h => result h
                 | None => Raise e
                 end
    end.
Proof.
  destruct body as [log [a|e]]; py_unfold; cbn; [done|].
  by destruct (handler e) as [[log' r]|].
Qed.

Lemma events_try_except {A} (body : M A) handler :
  events (try_except body handler) =
    match result body with
    | Ret a => events body
    | Raise e => match handler e with
                 | Some h => events body ++ events h
                 | None => events body
                 end
    end.
Proof.
  destruct body as [log [a|e]]; py_unfold; cbn; [done|].
  by destruct (handler e) as [[log' r]|].
Qed.

End Monad.

Section Decoder.
Context {lib : Backend}.

Lemma open_rgb_array_channels b a :
  result (open_rgb_array b) = Ret a → nd_channels a = "RGB".
Proof.
  unfold open_rgb_array. py_unfold.
  destruct (Image_open b) as [pil|e]; cbn; [|done].
  destruct (Image_convert "RGB" pil) as [rgb|e] eqn:Hconv; cbn; [|done].
  intros [= <-]. cbn. by apply Image_convert_mode in Hconv.
Qed.

Lemma decode_base64_channels payload a :
  result (decode_base64 payload) = Ret a → nd_channels a = "RGB".
Proof.
  unfold decode_base64. rewrite result_bind, result_call.
  destruct (base64_b64decode payload) as [img_bytes|e]; [|done].
  apply open_rgb_array_channels.
Qed.

Lemma b64_to_numpy_bare s :
  str_contains "data:image" s = false → b64_to_numpy s = decode_base64 s.
Proof.
  intros Hbare. unfold b64_to_numpy. rewrite Hbare. apply ret_bind.
Qed.

Lemma b64_to_numpy_data_uri s rest :
  str_contains "data:image" s = true → after_first "," s = Some rest →
  b64_to_numpy s = decode_base64 (up_to "," rest).
Proof.
  intros Huri Hrest. unfold b64_to_numpy, decode_base64. rewrite Huri.
  unfold list_getitem. rewrite str_split_second, Hrest.
  exact (ret_bind (up_to "," rest) _).
Qed.

(** C6 (as amended): the decoder takes raw image bytes
    ([open_rgb_array], inlined in both handlers) and base64 text
    ([b64_to_numpy]).  For text containing [data:image] it
    base64-decodes the piece between the first comma and the next one
    (or the end of the text), which is everything after the first comma
    when that remainder holds no comma; text without [data:image] is
    decoded whole.  Every array either path returns has RGB channel
    order. *)
Theorem image_decoder_accepts_bytes_and_base64 (s rest : string) (b : bytes) :
  str_contains "data:image" s = true →
  after_first "," s = Some rest →
  b64_to_numpy s = decode_base64 (up_to "," rest)
  ∧ (after_first "," rest = None → b64_to_numpy s = decode_base64 rest)
  ∧ (∀ bare, str_contains "data:image" bare = false →
       b64_to_numpy bare = decode_base64 bare)
  ∧ (∀ text a, result (b64_to_numpy text) = Ret a → nd_channels a = "RGB")
  ∧ (∀ a, result (open_rgb_array b) = Ret a → nd_channels a = "RGB").
Proof.
  intros Huri Hrest. split_and!.
  - by apply b64_to_numpy_data_uri.
  - intros Hone. rewrite <-(up_to_no_sep "," rest Hone).
    by apply b64_to_numpy_data_uri.
  - apply b64_to_numpy_bare.
  - intros text a.
    destruct (str_contains "data:image" text) eqn:Htext.
    + destruct (after_first "," text) as [rest'|] eqn:Hafter.
      * rewrite (b64_to_numpy_data_uri text rest') by done.
        apply decode_base64_channels.
      * unfold b64_to_numpy, list_getitem.
        rewrite Htext, str_split_second, Hafter. by py_unfold.
    + rewrite b64_to_numpy_bare by done. apply decode_base64_channels.
  - apply open_rgb_array_channels.
Qed.

End Decoder.

Section GenerateEmbedding.
Context {lib : Backend}.

Lemma generate_embedding_try_returns req resp :
  result (generate_embedding_try req) = Ret resp →
  (status resp = 200 ∧ ∃ v, body resp = jsonify [("embedding", v)])
  ∨ (files req !! "face" = None
     ∧ resp = mkResponse (jsonify [("error", PyStr "No image file provided.")]) 400
     ∧ events (generate_embedding_try req) = []).
Proof.
  unfold generate_embedding_try.
  destruct (files req !! "face") as [b|]; [|intros [= <-]; by right].
  destruct (open_rgb_array b) as [log [img|e]]; py_unfold; intros Hret;
    py_cases; left; eauto.
Qed.

Lemma generate_embedding_caught req e :
  result (generate_embedding_try req) = Raise e →
  isinstance e Exception = true →
  generate_embedding req =
    (events (generate_embedding_try req) ++ [Stderr (format_exc e)],
     Ret (mkResponse
            (jsonify [("error", PyStr ("An error occurred: " +:+ exc_str e))])
            500)).
Proof.
  unfold generate_embedding, generate_embedding_except.
  destruct (generate_embedding_try req) as [log r]. cbn. intros -> ->.
  reflexivity.
Qed.

Lemma generate_embedding_returned req resp :
  result (generate_embedding_try req) = Ret resp →
  generate_embedding req = generate_embedding_try req.
Proof.
  unfold generate_embedding.
  destruct (generate_embedding_try req) as [log r]. cbn. by intros ->.
Qed.

Lemma generate_embedding_reraises req e :
  result (generate_embedding req) = Raise e →
  result (generate_embedding_try req) = Raise e
  ∧ isinstance e Exception = false.
Proof.
  unfold generate_embedding, generate_embedding_except.
  rewrite result_try_except.
  destruct (result (generate_embedding_try req)) as [resp|e']; [done|].
  destruct (isinstance e' Exception) eqn:Hexc; [done|]. by intros [= ->].
Qed.

Lemma generate_embedding_try_decoded req b img :
  files req !! "face" = Some b →
  result (open_rgb_array b) = Ret img →
  result (generate_embedding_try req) =
    result (embedding_objs ←
              call (C_represent img MODEL_NAME true DETECTOR_BACKEND)
                   (DeepFace_represent img MODEL_NAME true DETECTOR_BACKEND);
            obj ← list_getitem embedding_objs 0;
            embedding ← dict_getitem obj "embedding";
            mret (mkResponse (jsonify [("embedding", embedding)]) 200)).
Proof.
  intros Hface Himg. unfold generate_embedding_try.
  rewrite Hface, result_bind, Himg. done.
Qed.

Lemma generate_embedding_try_undecoded req b e :
  files req !! "face" = Some b →
  result (open_rgb_array b) = Raise e →
  result (generate_embedding_try req) = Raise e.
Proof.
  intros Hface Himg. unfold generate_embedding_try.
  by rewrite Hface, result_bind, Himg.
Qed.

(** C10: when the embedder returns a non-empty list of per-face objects,
    the reply is 200 and its body holds the embedding of the first
    object and nothing else; the other faces do not reach the caller. *)
Theorem generate_embedding_returns_first_face
    (req : Request) (b : bytes) (img : ndarray)
    (obj : pydict) (others : list pydict) (embedding : pyvalue) :
  files req !! "face" = Some b →
  result (open_rgb_array b) = Ret img →
  DeepFace_represent img MODEL_NAME true DETECTOR_BACKEND = Ret (obj :: others) →
  obj !! "embedding" = Some embedding →
  result (generate_embedding req) =
    Ret (mkResponse {[ "embedding" := embedding ]} 200).
Proof.
  intros Hface Himg Hobjs Hemb.
  assert (result (generate_embedding_try req) =
            Ret (mkResponse {[ "embedding" := embedding ]} 200)) as Htry.
  { rewrite (generate_embedding_try_decoded req b img) by done.
    rewrite result_bind, result_call, Hobjs. cbn.
    unfold dict_getitem. rewrite Hemb. reflexivity. }
  by rewrite (generate_embedding_returned req _ Htry).
Qed.

End GenerateEmbedding.

Section CompareFaces.
Context {lib : Backend}.

Lemma compare_faces_try_checked req b s :
  files req !! "face" = Some b →
  form req !! "stored_embedding" = Some s → s ≠ "" →
  compare_faces_try req = verify_upload b s.
Proof.
  intros Hface Hform Hs. unfold compare_faces_try, dict_contains.
  rewrite Hface, Hform, bool_decide_true by eauto. cbn.
  destruct s as [|c s]; [done|].
  unfold dict_getitem. rewrite Hface. exact (ret_bind b _).
Qed.

Lemma compare_faces_try_no_face req :
  files req !! "face" = None →
  compare_faces_try req =
    mret (mkResponse
            (jsonify [("error", PyStr "No face image provided for comparison.")])
            400).
Proof.
  intros Hface. unfold compare_faces_try, dict_contains.
  rewrite Hface, bool_decide_false; [done|]. by intros [? ?].
Qed.

Lemma compare_faces_try_no_embedding req b :
  files req !! "face" = Some b →
  form req !! "stored_embedding" = None ∨ form req !! "stored_embedding" = Some "" →
  compare_faces_try req =
    mret (mkResponse
            (jsonify [("error", PyStr "No stored embedding provided.")]) 400).
Proof.
  intros Hface Hform. unfold compare_faces_try, dict_contains.
  rewrite Hface, bool_decide_true by eauto. cbn.
  by destruct Hform as [-> | ->].
Qed.

Lemma verify_upload_returns b s resp :
  result (verify_upload b s) = Ret resp →
  status resp = 200 ∧ ∃ v, body resp = jsonify [("is_match", v)].
Proof.
  unfold verify_upload.
  destruct (open_rgb_array b) as [log [img|e]]; py_unfold; intros Hret;
    py_cases; eauto.
Qed.

Lemma compare_faces_caught_400 req e :
  result (compare_faces_try req) = Raise e →
  isinstance e ValueError = true →
  compare_faces req =
    (events (compare_faces_try req),
     Ret (mkResponse
            (jsonify [("error", PyStr ("Could not process image: " +:+ exc_str e));
                      ("is_match", PyBool false)])
            400)).
Proof.
  unfold compare_faces, compare_faces_except.
  destruct (compare_faces_try req) as [log r]. cbn. intros -> ->. cbn.
  by rewrite app_nil_r.
Qed.

Lemma compare_faces_caught_500 req e :
  result (compare_faces_try req) = Raise e →
  isinstance e ValueError = false →
  isinstance e Exception = true →
  compare_faces req =
    (events (compare_faces_try req) ++ [Stderr (format_exc e)],
     Ret (mkResponse
            (jsonify [("error",
                       PyStr ("An internal error occurred during comparison: "
                              +:+ exc_str e));
                      ("is_match", PyBool false)])
            500)).
Proof.
  unfold compare_faces, compare_faces_except.
  destruct (compare_faces_try req) as [log r]. cbn. by intros -> -> ->.
Qed.

Lemma compare_faces_returned req resp :
  result (compare_faces_try req) = Ret resp →
  compare_faces req = compare_faces_try req.
Proof.
  unfold compare_faces.
  destruct (compare_faces_try req) as [log r]. cbn. by intros ->.
Qed.

Lemma compare_faces_uncaught req e :
  result (compare_faces_try req) = Raise e →
  isinstance e ValueError = false →
  isinstance e Exception = false →
  compare_faces req = compare_faces_try req.
Proof.
  unfold compare_faces, compare_faces_except.
  destruct (compare_faces_try req) as [log r]. cbn. by intros -> -> ->.
Qed.

End CompareFaces.

Section ErrorHandling.
Context {lib : Backend}.

Lemma generate_embedding_uncaught req e :
  result (generate_embedding_try req) = Raise e →
  isinstance e Exception = false →
  generate_embedding req = generate_embedding_try req.
Proof.
  unfold generate_embedding, generate_embedding_except.
  destruct (generate_embedding_try req) as [log r]. cbn. by intros -> ->.
Qed.

Lemma verify_upload_undecoded b s e :
  result (open_rgb_array b) = Raise e → result (verify_upload b s) = Raise e.
Proof. intros Himg. unfold verify_upload. by rewrite result_bind, Himg. Qed.



(** What [/compare-faces] answers when its [try] block raises [e]. *)
Lemma compare_faces_error_reply req e :
  result (compare_faces_try req) = Raise e →
  isinstance e Exception = true →
  error_reply (compare_faces req) (if isinstance e ValueError then 400 else 500).
Proof.
  intros Htry Hexc. destruct (isinstance e ValueError) eqn:Hvalue.
  - rewrite (compare_faces_caught_400 req e) by done.
    by eexists _, _.
  - rewrite (compare_faces_caught_500 req e) by done.
    by eexists _, _.
Qed.

(** How the two handlers part on an upload that cannot be decoded
    (opening or converting it raises [e]): [/generate-embedding] has no
    clause but [except Exception] and answers 500 whatever [e] is, a
    [ValueError] included, while [/compare-faces] answers the same
    [ValueError] 400 and only other classes 500. *)
Lemma undecodable_image_gets_error_reply (req : Request) (b : bytes) (e : PyExc) :
  files req !! "face" = Some b →
  result (open_rgb_array b) = Raise e →
  isinstance e Exception = true →
  error_reply (generate_embedding req) 500
  ∧ (∀ s, form req !! "stored_embedding" = Some s → s ≠ "" →
       error_reply (compare_faces req)
         (if isinstance e ValueError then 400 else 500))
  ∧ (form req !! "stored_embedding" = None
     ∨ form req !! "stored_embedding" = Some "" →
       error_reply (compare_faces req) 400).
Proof.
  intros Hface Himg Hexc. split_and!.
  - rewrite (generate_embedding_caught req e);
      [by eexists _, _ | by eapply generate_embedding_try_undecoded | done].
  - intros s Hform Hs. apply compare_faces_error_reply; [|done].
    rewrite (compare_faces_try_checked req b s) by done.
    by apply verify_upload_undecoded.
  - intros Hform.
    pose proof (compare_faces_try_no_embedding req b Hface Hform) as Htry.
    rewrite (compare_faces_returned req
               (mkResponse (jsonify [("error", PyStr "No stored embedding provided.")]) 400)),
      Htry; [by eexists _, _ | by rewrite Htry].
Qed.


End ErrorHandling.

Section Comparison.
Context {lib : Backend}.

Lemma open_rgb_array_events b ev :
  ev ∈ events (open_rgb_array b) →
  ev = Called (C_Image_open b) ∨ ∃ im, ev = Called (C_convert "RGB" im).
Proof.
  unfold open_rgb_array. py_unfold.
  destruct (Image_open b) as [pil|e]; cbn.
  - destruct (Image_convert "RGB" pil); cbn;
      rewrite !elem_of_cons, elem_of_nil; intuition eauto.
  - rewrite elem_of_cons, elem_of_nil. intuition eauto.
Qed.

Lemma events_try_except_incl {A} (body : M A) handler ev :
  ev ∈ events body → ev ∈ events (try_except body handler).
Proof.
  rewrite events_try_except. destruct (result body); [done|].
  destruct (handler e); [|done]. rewrite elem_of_app. by left.
Qed.

Lemma verify_upload_events_parsed b img s v :
  result (open_rgb_array b) = Ret img → json_loads s = Ret v →
  Called (C_verify img v MODEL_NAME DETECTOR_BACKEND DISTANCE_METRIC true)
    ∈ events (verify_upload b s).
Proof.
  intros Himg Hjson. unfold verify_upload.
  rewrite events_bind, Himg, events_bind, result_call, Hjson, events_bind.
  rewrite result_call, !events_call, !elem_of_app. right. right.
  destruct (DeepFace_verify _ _ _ _ _ _);
    rewrite ?elem_of_app, list_elem_of_singleton; auto.
Qed.

Lemma verify_upload_events_unparsed b img s e :
  result (open_rgb_array b) = Ret img → json_loads s = Raise e →
  events (verify_upload b s) =
    events (open_rgb_array b) ++ [Called (C_json_loads s)].
Proof.
  intros Himg Hjson. unfold verify_upload.
  by rewrite events_bind, Himg, events_bind, result_call, Hjson, events_call.
Qed.

(** Whatever the [except] clauses of [compare_faces] add to the log is
    written to stderr. *)
Lemma compare_faces_events req ev :
  ev ∈ events (compare_faces req) →
  ev ∈ events (compare_faces_try req) ∨ ∃ lines, ev = Stderr lines.
Proof.
  unfold compare_faces, compare_faces_except. rewrite events_try_except.
  destruct (result (compare_faces_try req)) as [resp|e]; [by left|].
  destruct (isinstance e ValueError);
    [|destruct (isinstance e Exception)]; cbn;
    rewrite ?app_nil_r, ?elem_of_app, ?list_elem_of_singleton;
    intuition eauto.
Qed.

(** C5 (as amended): on [/compare-faces], with an upload that decodes,
    the stored embedding is only parsed as JSON before the comparison.
    A payload that parses, to a list of any length, a string, an object
    or anything else, is handed unchanged to [DeepFace.verify]; a payload
    that does not parse never reaches that call. *)
Theorem parsed_payload_reaches_verify_unchecked
    (req : Request) (b : bytes) (img : ndarray) (s : string) :
  files req !! "face" = Some b →
  result (open_rgb_array b) = Ret img →
  form req !! "stored_embedding" = Some s → s ≠ "" →
  (∀ v, json_loads s = Ret v →
     Called (C_verify img v MODEL_NAME DETECTOR_BACKEND DISTANCE_METRIC true)
       ∈ events (compare_faces req))
  ∧ (∀ e, json_loads s = Raise e →
       ∀ img1 img2 model detector metric enforce,
         Called (C_verify img1 img2 model detector metric enforce)
           ∉ events (compare_faces req)).
Proof.
  intros Hface Himg Hform Hs. split.
  - intros v Hjson. apply events_try_except_incl.
    rewrite (compare_faces_try_checked req b s) by done.
    by apply verify_upload_events_parsed.
  - intros e Hjson img1 img2 model detector metric enforce Hin.
    apply compare_faces_events in Hin as [Hin|[lines ?]]; [|done].
    rewrite (compare_faces_try_checked req b s) in Hin by done.
    rewrite (verify_upload_events_unparsed b img s e) in Hin by done.
    apply elem_of_app in Hin as [Hin|Hin].
    + apply open_rgb_array_events in Hin as [?|[im ?]]; done.
    + by apply list_elem_of_singleton in Hin.
Qed.

End Comparison.

Section ErrorMessages.
Context {lib : Backend}.

Lemma compare_faces_try_returns req resp :
  result (compare_faces_try req) = Ret resp →
  status resp = 200
  ∨ (events (compare_faces_try req) = []
     ∧ (resp = mkResponse
                 (jsonify [("error", PyStr "No face image provided for comparison.")])
                 400
        ∨ resp = mkResponse
                   (jsonify [("error", PyStr "No stored embedding provided.")])
                   400)).
Proof.
  destruct (files req !! "face") as [b|] eqn:Hface.
  - destruct (form req !! "stored_embedding") as [[|c s]|] eqn:Hform.
    + rewrite (compare_faces_try_no_embedding req b) by auto.
      intros [= <-]. auto.
    + rewrite (compare_faces_try_checked req b (String c s)) by done.
      intros [? _]%verify_upload_returns. by left.
    + rewrite (compare_faces_try_no_embedding req b) by auto.
      intros [= <-]. auto.
  - rewrite (compare_faces_try_no_face req) by done. intros [= <-]. auto.
Qed.

(** The [try] blocks call the libraries and print; they never write to
    stderr. *)
Lemma try_block_no_stderr ep req lines :
  Stderr lines ∉ events (try_block ep req).
Proof.
  destruct ep; cbn [try_block].
  - unfold generate_embedding_try, open_rgb_array. py_unfold.
    intros Hin. py_cases; not_logged Hin.
  - destruct (files req !! "face") as [b|] eqn:Hface.
    + destruct (form req !! "stored_embedding") as [[|c s]|] eqn:Hform.
      * rewrite (compare_faces_try_no_embedding req b) by auto.
        apply not_elem_of_nil.
      * rewrite (compare_faces_try_checked req b (String c s)) by done.
        unfold verify_upload, open_rgb_array. py_unfold.
        intros Hin. py_cases; not_logged Hin.
      * rewrite (compare_faces_try_no_embedding req b) by auto.
        apply not_elem_of_nil.
    + rewrite (compare_faces_try_no_face req) by done. apply not_elem_of_nil.
Qed.

Lemma stderr_after_try ep req e lines :
  Stderr lines ∈ events (try_block ep req) ++ [Stderr (format_exc e)]
  ↔ lines = format_exc e.
Proof.
  rewrite elem_of_app, list_elem_of_singleton. split.
  - intros [Hin|[= ->]]; [|done]. by apply try_block_no_stderr in Hin.
  - intros ->. by right.
Qed.

(** Only what is not an [Exception] ([SystemExit], [KeyboardInterrupt])
    gets past a handler. *)
Lemma handlers_catch_every_Exception ep req e :
  result (view_function ep req) = Raise e → isinstance e Exception = false.
Proof.
  destruct ep; cbn [view_function];
    unfold generate_embedding, generate_embedding_except,
      compare_faces, compare_faces_except;
    rewrite result_try_except.
  - destruct (result (generate_embedding_try req)) as [resp|e']; [done|].
    destruct (isinstance e' Exception) eqn:Hexc; [done|]. by intros [= <-].
  - destruct (result (compare_faces_try req)) as [resp|e']; [done|].
    destruct (isinstance e' ValueError); [done|].
    destruct (isinstance e' Exception) eqn:Hexc; [done|]. by intros [= <-].
Qed.

(** Both [except] clauses of [compare_faces] put ["is_match": false] into
    the body. *)
Lemma compare_faces_except_is_match req e resp :
  result (compare_faces_try req) = Raise e →
  result (compare_faces req) = Ret resp →
  body resp !! "is_match" = Some (PyBool false).
Proof.
  intros Htry. unfold compare_faces, compare_faces_except.
  rewrite result_try_except, Htry.
  destruct (isinstance e ValueError); [by intros [= <-]|].
  destruct (isinstance e Exception); [by intros [= <-]|done].
Qed.

(** C8 (as amended): an error reply of either endpoint carries one of
    the three fixed input-check messages, or a fixed prefix followed by
    [str(e)] of the exception [e] that the [try] block raised, so the
    exception's own text does reach the caller.  The body holds that
    message (with ["is_match": false] on the [except] paths of
    [/compare-faces]) and nothing else; the stack trace of [e] goes to
    stderr only, and only on the replies with status 500. *)
Theorem error_message_is_prefix_then_exception_text
    (ep : Endpoint) (req : Request) (resp : Response) :
  result (view_function ep req) = Ret resp →
  status resp ≠ 200 →
  ∃ msg,
    (body resp = jsonify [("error", PyStr msg)]
     ∨ body resp = jsonify [("error", PyStr msg); ("is_match", PyBool false)])
    ∧ ((msg ∈ fixed_messages ∧ events (view_function ep req) = [])
       ∨ ∃ e prefix,
           result (try_block ep req) = Raise e
           ∧ prefix ∈ message_prefixes
           ∧ msg = prefix +:+ exc_str e
           ∧ ∀ lines, Stderr lines ∈ events (view_function ep req)
                      ↔ status resp = 500 ∧ lines = format_exc e).
Proof.
  intros Hres Hstatus. destruct ep; cbn [view_function try_block] in *.
  - destruct (result (generate_embedding_try req)) as [resp'|e] eqn:Htry.
    + rewrite (generate_embedding_returned req resp') in * by done.
      rewrite Htry in Hres. injection Hres as ->.
      apply generate_embedding_try_returns in Htry
        as [[? _]|(_ & -> & Hlog)]; [done|].
      eexists. split; [by left|]. left. split; [|done].
      unfold fixed_messages. rewrite !elem_of_cons. auto.
    + destruct (isinstance e Exception) eqn:Hexc.
      * rewrite (generate_embedding_caught req e) in * by done.
        injection Hres as <-.
        eexists. split; [by left|]. right. exists e, "An error occurred: ".
        split_and!; [done|unfold message_prefixes; rewrite !elem_of_cons; auto|done|].
        intros lines. cbn [events fst status].
        pose proof (stderr_after_try EP_generate_embedding req e lines) as Hlog.
        cbn [try_block] in Hlog. rewrite Hlog. intuition.
      * rewrite (generate_embedding_uncaught req e) in Hres by done.
        congruence.
  - destruct (result (compare_faces_try req)) as [resp'|e] eqn:Htry.
    + rewrite (compare_faces_returned req resp') in * by done.
      rewrite Htry in Hres. injection Hres as ->.
      apply compare_faces_try_returns in Htry as [?|[Hlog [-> | ->]]];
        [done|..]; (eexists; split; [by left|]; left; split; [|done];
                    unfold fixed_messages; rewrite !elem_of_cons; auto).
    + destruct (isinstance e ValueError) eqn:Hvalue;
        [|destruct (isinstance e Exception) eqn:Hexc].
      * rewrite (compare_faces_caught_400 req e) in * by done.
        injection Hres as <-.
        eexists. split; [by right|]. right.
        exists e, "Could not process image: ".
        split_and!; [done|unfold message_prefixes; rewrite !elem_of_cons; auto|done|].
        intros lines. cbn [events fst status]. split; [|by intros [? _]].
        by intros Hin%(try_block_no_stderr EP_compare_faces).
      * rewrite (compare_faces_caught_500 req e) in * by done.
        injection Hres as <-.
        eexists. split; [by right|]. right.
        exists e, "An internal error occurred during comparison: ".
        split_and!; [done|unfold message_prefixes; rewrite !elem_of_cons; auto|done|].
        intros lines. cbn [events fst status].
        pose proof (stderr_after_try EP_compare_faces req e lines) as Hlog.
        cbn [try_block] in Hlog. rewrite Hlog. intuition.
      * rewrite (compare_faces_uncaught req e) in Hres by done.
        congruence.
Qed.

End ErrorMessages.

Section Startup.
Context {lib : Backend}.

Lemma preload_result :
  result preload =
    match DeepFace_build_model MODEL_NAME with
    | Ret _ => Ret tt
    | Raise e => if isinstance e Exception then Ret tt else Raise e
    end.
Proof.
  unfold preload. py_unfold.
  destruct (DeepFace_build_model MODEL_NAME) as [[]|e]; cbn; [reflexivity|].
  by destruct (isinstance e Exception).
Qed.

Lemma preload_calls_build_model :
  Called (C_build_model MODEL_NAME) ∈ events preload.
Proof.
  unfold preload. py_unfold.
  destruct (DeepFace_build_model MODEL_NAME) as [[]|e]; cbn;
    [|destruct (isinstance e Exception); cbn];
    rewrite !elem_of_cons; auto.
Qed.

Lemma preload_failure_printed e :
  DeepFace_build_model MODEL_NAME = Raise e →
  isinstance e Exception = true →
  Stdout ("Error loading model on startup: " +:+ exc_str e) ∈ events preload.
Proof.
  intros Hbuild Hexc. unfold preload. py_unfold. rewrite Hbuild. cbn.
  rewrite Hexc. cbn. rewrite !elem_of_cons. auto.
Qed.

Lemma startup_after_preload :
  startup =
    match result preload with
    | Ret _ =>
        mkProcess Serving
          (<["/compare-faces" := EP_compare_faces]>
             (<["/generate-embedding" := EP_generate_embedding]> ∅))
          (events preload)
    | Raise e => mkProcess (Terminated e) ∅ (events preload)
    end.
Proof.
  unfold startup, fresh_process. cbn.
  destruct preload as [log [[]|e]]; reflexivity.
Qed.

(** Every state the module body passes through is either the fresh
    process or one whose console already shows the preload call. *)
Lemma reachable_preloaded p :
  reachable p →
  p = fresh_process
  ∨ (stage p ≠ AtPreload ∧ Called (C_build_model MODEL_NAME) ∈ console p).
Proof.
  induction 1 as [|p p' Hreach IH Hstep]; [by left|]. right.
  unfold step in Hstep. destruct IH as [-> | [Hstage Hcalled]].
  - cbn in Hstep. pose proof preload_calls_build_model as Hcall.
    destruct preload as [log r]. injection Hstep as <-. cbn in *.
    split; [by destruct r|done].
  - destruct (stage p) eqn:Hp; [done|..]; simplify_eq; cbn; done.
Qed.

Lemma startup_terminated e :
  DeepFace_build_model MODEL_NAME = Raise e →
  isinstance e Exception = false →
  stage startup = Terminated e ∧ ∀ path req, serve startup path req = None.
Proof.
  intros Hbuild Hexc. rewrite startup_after_preload, preload_result, Hbuild, Hexc.
  done.
Qed.

(** C7 (as amended): when [DeepFace.build_model] returns, or fails with
    an ordinary exception (the failure is then printed and swallowed),
    the module goes on to register both routes and to serve.  No state
    of the start-up answers a request before the preload has been
    attempted. *)
Theorem startup_serves_once_preload_attempted :
  (∀ e, DeepFace_build_model MODEL_NAME = Raise e →
        isinstance e Exception = true) →
  stage startup = Serving
  ∧ url_map startup =
      <["/compare-faces" := EP_compare_faces]>
        (<["/generate-embedding" := EP_generate_embedding]> ∅)
  ∧ (∀ e, DeepFace_build_model MODEL_NAME = Raise e →
          Stdout ("Error loading model on startup: " +:+ exc_str e)
            ∈ console startup)
  ∧ (∀ p path req, reachable p → is_Some (serve p path req) →
       Called (C_build_model MODEL_NAME) ∈ console p).
Proof.
  intros Hordinary.
  assert (result preload = Ret tt) as Hpre.
  { rewrite preload_result.
    destruct (DeepFace_build_model MODEL_NAME) as [[]|e] eqn:Hbuild; [done|].
    by rewrite (Hordinary e). }
  rewrite startup_after_preload, Hpre. split_and!; [done|done|..].
  - intros e Hbuild. cbn. apply preload_failure_printed; auto.
  - intros p path req Hreach Hserve.
    apply reachable_preloaded in Hreach as [-> | [_ Hcalled]]; [|done].
    by destruct Hserve.
Qed.

End Startup.

(** ** Two calls with the same upload *)

Section TwoCalls.
Variables lib1 lib2 : Backend.

Lemma same_outcome_refl {A} (o : outcome A) : same_outcome o o.
Proof. by destruct o. Qed.

Lemma open_rgb_array_same b :
  same_libraries lib1 lib2 →
  same_outcome (result (open_rgb_array (lib:=lib1) b))
               (result (open_rgb_array (lib:=lib2) b)).
Proof.
  intros (Hopen & Hconvert & _).
  unfold open_rgb_array. rewrite !result_bind, !result_call.
  specialize (Hopen b).
  destruct (@Image_open lib1 b) as [im1|e1], (@Image_open lib2 b) as [im2|e2];
    cbn in Hopen; try done.
  subst im2. rewrite !result_bind, !result_call.
  specialize (Hconvert im1).
  destruct (@Image_convert lib1 "RGB" im1) as [rgb1|e1],
           (@Image_convert lib2 "RGB" im1) as [rgb2|e2];
    cbn in Hconvert; try done.
  by subst rgb2.
Qed.

Lemma generate_embedding_try_same r1 r2 :
  same_libraries lib1 lib2 →
  files r1 !! "face" = files r2 !! "face" →
  same_outcome (result (generate_embedding_try (lib:=lib1) r1))
               (result (generate_embedding_try (lib:=lib2) r2)).
Proof.
  intros Hsame Hfiles. unfold generate_embedding_try. rewrite Hfiles.
  destruct (files r2 !! "face") as [b|]; [|done].
  rewrite !result_bind. pose proof (open_rgb_array_same b Hsame) as Hopen.
  destruct (result (open_rgb_array (lib:=lib1) b)) as [img1|e1],
           (result (open_rgb_array (lib:=lib2) b)) as [img2|e2];
    cbn in Hopen; try done.
  subst img2. rewrite !result_bind, !result_call.
  destruct Hsame as (_ & _ & Hrepresent). specialize (Hrepresent img1).
  destruct (@DeepFace_represent lib1 img1 MODEL_NAME true DETECTOR_BACKEND)
             as [objs1|e1],
           (@DeepFace_represent lib2 img1 MODEL_NAME true DETECTOR_BACKEND)
             as [objs2|e2];
    cbn in Hrepresent; try done.
  subst objs2. apply same_outcome_refl.
Qed.

Lemma first_face_reply (lib : Backend) req b img obj others v :
  files req !! "face" = Some b →
  result (open_rgb_array (lib:=lib) b) = Ret img →
  @DeepFace_represent lib img MODEL_NAME true DETECTOR_BACKEND
    = Ret (obj :: others) →
  obj !! "embedding" = Some v →
  result (generate_embedding (lib:=lib) req) =
    Ret (mkResponse {[ "embedding" := v ]} 200).
Proof.
  intros Hface Himg Hobjs Hkey.
  unfold generate_embedding. rewrite result_try_except.
  rewrite (generate_embedding_try_decoded req b img) by done.
  rewrite result_bind, result_call, Hobjs. cbn.
  unfold dict_getitem. by rewrite Hkey.
Qed.

(** C9: two calls of [/generate-embedding] with the same [face] bytes,
    the libraries answering alike up to the text of their exceptions,
    return identical embedding vectors.  The two replies have the same
    status and the same ["embedding"], a 200 reply is reproduced whole
    (only the message of an error reply can differ), and an exception
    that leaves one call leaves the other with the same class.  When the
    upload decodes and the embedder finds a first face with an
    embedding, both calls do reply 200 with that embedding. *)
Theorem same_upload_same_embedding (r1 r2 : Request) :
  same_libraries lib1 lib2 →
  files r1 !! "face" = files r2 !! "face" →
  match result (generate_embedding (lib:=lib1) r1),
        result (generate_embedding (lib:=lib2) r2) with
  | Ret resp1, Ret resp2 =>
      status resp1 = status resp2
      ∧ body resp1 !! "embedding" = body resp2 !! "embedding"
      ∧ (status resp1 = 200 → resp1 = resp2)
  | Raise e1, Raise e2 => exc_class e1 = exc_class e2
  | _, _ => False
  end
  ∧ ∀ b img obj others v,
      files r1 !! "face" = Some b →
      result (open_rgb_array (lib:=lib1) b) = Ret img →
      @DeepFace_represent lib1 img MODEL_NAME true DETECTOR_BACKEND
        = Ret (obj :: others) →
      obj !! "embedding" = Some v →
      result (generate_embedding (lib:=lib1) r1)
        = Ret (mkResponse {[ "embedding" := v ]} 200)
      ∧ result (generate_embedding (lib:=lib2) r2)
          = Ret (mkResponse {[ "embedding" := v ]} 200).
Proof.
  intros Hsame Hfiles. split.
  - pose proof (generate_embedding_try_same r1 r2 Hsame Hfiles) as Htry.
    unfold generate_embedding. rewrite !result_try_except.
    destruct (result (generate_embedding_try (lib:=lib1) r1)) as [resp1|e1],
             (result (generate_embedding_try (lib:=lib2) r2)) as [resp2|e2];
      cbn in Htry; try done.
    + by subst resp2.
    + unfold generate_embedding_except, isinstance. rewrite Htry.
      by destruct (issubclass (exc_class e2) Exception).
  - intros b img obj others v Hface Himg Hobjs Hkey. split.
    + by eapply first_face_reply.
    + pose proof (open_rgb_array_same b Hsame) as Hopen.
      rewrite Himg in Hopen.
      destruct (result (open_rgb_array (lib:=lib2) b)) as [img2|e2] eqn:Himg2;
        cbn in Hopen; [subst img2|done].
      destruct Hsame as (_ & _ & Hrepresent). specialize (Hrepresent img).
      rewrite Hobjs in Hrepresent.
      destruct (@DeepFace_represent lib2 img MODEL_NAME true DETECTOR_BACKEND)
        as [objs2|e2] eqn:Hobjs2; cbn in Hrepresent; [subst objs2|done].
      eapply first_face_reply; [by rewrite <-Hfiles|done..].
Qed.

End TwoCalls.

(** ** The handlers on concrete requests *)

Section MissingInput.
Context {lib : Backend}.

(** C3: the two input checks of [/compare-faces] reply 400 with an
    ["error"] message but without any ["is_match"] key, whereas both
    [except] clauses of the same handler put ["is_match": false] next to
    the message. *)
Theorem missing_input_reply_has_no_is_match (b : bytes) :
  (∃ resp,
     result (compare_faces (mkRequest ∅ ∅)) = Ret resp
     ∧ status resp = 400
     ∧ body resp !! "error"
         = Some (PyStr "No face image provided for comparison.")
     ∧ body resp !! "is_match" = None)
  ∧ (∃ resp,
       result (compare_faces (mkRequest {[ "face" := b ]} ∅)) = Ret resp
       ∧ status resp = 400
       ∧ body resp !! "error" = Some (PyStr "No stored embedding provided.")
       ∧ body resp !! "is_match" = None).
Proof. split; by eexists. Qed.

End MissingInput.

Section OnFixture.
Import Fixture.
#[local] Existing Instance warm.

Lemma JSONDecodeError_is_ValueError : issubclass JSONDecodeError ValueError = true.
Proof. reflexivity. Qed.

Lemma UnidentifiedImageError_is_not_ValueError :
  issubclass UnidentifiedImageError ValueError = false
  ∧ issubclass UnidentifiedImageError Exception = true.
Proof. split; reflexivity. Qed.

(** C1: a 1x1 black pixel decodes, DeepFace finds no face in it and
    raises [ValueError], and [/generate-embedding] answers 500 with an
    ["error"] message and no ["embedding"]; [/compare-faces] answers the
    same failure with 400. *)
Theorem no_face_on_generate_embedding_is_500 :
  result (open_rgb_array black_pixel_png) = Ret (np_array black_pixel)
  ∧ DeepFace_represent (np_array black_pixel) MODEL_NAME true DETECTOR_BACKEND
      = Raise no_face
  ∧ (∃ resp,
       result (generate_embedding (upload black_pixel_png)) = Ret resp
       ∧ status resp = 500
       ∧ is_Some (body resp !! "error")
       ∧ body resp !! "embedding" = None)
  ∧ error_reply (compare_faces (upload_with black_pixel_png "[0.25, 0.5]")) 400.
Proof.
  split_and!; [reflexivity|reflexivity| |].
  - eexists. split_and!; [vm_compute; reflexivity|done|by eexists|done].
  - eexists _, _. split_and!; [vm_compute; reflexivity|done|done|done].
Qed.

(** C2: a zero-byte upload is no image: Pillow raises
    [UnidentifiedImageError], an [OSError], which misses the
    [ValueError] clause of [compare_faces] and meets no such clause in
    [generate_embedding].  Both endpoints answer 500 with a non-empty
    ["error"] message, where the claim says 400. *)
Theorem zero_byte_upload_is_answered_500 :
  Image_open [] = Raise cannot_identify
  ∧ error_reply (generate_embedding (upload [])) 500
  ∧ ¬ error_reply (generate_embedding (upload [])) 400
  ∧ error_reply (compare_faces (upload_with [] "[0.25, 0.5]")) 500
  ∧ ¬ error_reply (compare_faces (upload_with [] "[0.25, 0.5]")) 400.
Proof.
  split_and!.
  - reflexivity.
  - eexists _, _. split_and!; [vm_compute; reflexivity|done..].
  - intros (resp & msg & Hres & Hstatus & _).
    vm_compute in Hres. injection Hres as <-. discriminate.
  - eexists _, _. split_and!; [vm_compute; reflexivity|done..].
  - intros (resp & msg & Hres & Hstatus & _).
    vm_compute in Hres. injection Hres as <-. discriminate.
Qed.




(** With an upload that decodes, text that is not JSON and a list of the
    wrong length both get 400 from this backend, the second because its
    [verify] raises a [ValueError]. *)
Example invalid_embeddings_on_decodable_upload :
  error_reply (compare_faces (upload_with portrait_png "nope")) 400
  ∧ error_reply (compare_faces (upload_with portrait_png "[0.25]")) 400.
Proof.
  split; eexists _, _; (split_and!; [vm_compute; reflexivity|done..]).
Qed.

End OnFixture.

Section OnFixtureComparison.
Import Fixture.
#[local] Existing Instance warm.

(** C5, refuted as stated: with a 1x1 PNG as upload, a stored embedding
    that parses to a JSON object is handed to [DeepFace.verify] all the
    same. *)
Lemma json_object_reaches_verify :
  result (open_rgb_array black_pixel_png) = Ret (np_array black_pixel)
  ∧ json_loads "{}" = Ret (PyDict ∅)
  ∧ Called (C_verify (np_array black_pixel) (PyDict ∅) MODEL_NAME
              DETECTOR_BACKEND DISTANCE_METRIC true)
      ∈ events (compare_faces (upload_with black_pixel_png "{}")).
Proof.
  split_and!; [reflexivity|reflexivity|].
  run_log. rewrite !elem_of_cons. auto.
Qed.

Lemma parsed_payload_reaches_verify_unchecked_witness :
  let req := upload_with portrait_png "[0.25]" in
  (files req !! "face" = Some portrait_png
   ∧ result (open_rgb_array portrait_png) = Ret portrait_rgb
   ∧ form req !! "stored_embedding" = Some "[0.25]"
   ∧ "[0.25]" ≠ "")
  ∧ (∀ v, json_loads "[0.25]" = Ret v →
       Called (C_verify portrait_rgb v MODEL_NAME DETECTOR_BACKEND
                 DISTANCE_METRIC true)
         ∈ events (compare_faces req))
  ∧ (∀ e, json_loads "[0.25]" = Raise e →
       ∀ img1 img2 model detector metric enforce,
         Called (C_verify img1 img2 model detector metric enforce)
           ∉ events (compare_faces req)).
Proof.
  intros req. split; [by split_and!|].
  apply (parsed_payload_reaches_verify_unchecked req portrait_png
           portrait_rgb "[0.25]");
    [reflexivity|reflexivity|reflexivity|discriminate].
Defined.

(** C6, refuted as stated: on a text with a second comma the decoder
    does not base64-decode everything after the first comma, only the
    piece up to the second one. *)
Lemma second_comma_cuts_payload :
  let text := "data:image/png;base64,AAAA,BBBB" in
  after_first "," text = Some "AAAA,BBBB"
  ∧ (Called (C_b64decode "AAAA,BBBB") ∉ events (b64_to_numpy text))
  ∧ Called (C_b64decode "AAAA") ∈ events (b64_to_numpy text).
Proof.
  split_and!; [reflexivity| |].
  - run_log. intros Hin. not_logged Hin.
  - run_log. rewrite !elem_of_cons. auto.
Qed.

Lemma image_decoder_accepts_bytes_and_base64_witness :
  let text := "data:image/png;base64,AAAA" in
  (str_contains "data:image" text = true
   ∧ after_first "," text = Some "AAAA")
  ∧ b64_to_numpy text = decode_base64 (up_to "," "AAAA")
  ∧ (after_first "," "AAAA" = None → b64_to_numpy text = decode_base64 "AAAA")
  ∧ (∀ bare, str_contains "data:image" bare = false →
       b64_to_numpy bare = decode_base64 bare)
  ∧ (∀ text' a, result (b64_to_numpy text') = Ret a → nd_channels a = "RGB")
  ∧ (∀ a, result (open_rgb_array portrait_png) = Ret a →
       nd_channels a = "RGB").
Proof.
  intros text. split; [by split|].
  apply (image_decoder_accepts_bytes_and_base64 text "AAAA" portrait_png);
    reflexivity.
Defined.

(** C8, refuted as stated: the reply to a zero-byte upload shows the
    caller the text of Pillow's exception. *)
Lemma error_message_shows_exception_text :
  result (open_rgb_array []) = Raise cannot_identify
  ∧ ∃ resp msg,
      result (generate_embedding (upload [])) = Ret resp
      ∧ body resp !! "error" = Some (PyStr msg)
      ∧ msg = "An error occurred: cannot identify image file"
      ∧ str_contains (exc_str cannot_identify) msg = true.
Proof.
  split; [reflexivity|]. eexists _, _.
  split_and!; [vm_compute; reflexivity|reflexivity|reflexivity|reflexivity].
Qed.

Lemma error_message_is_prefix_then_exception_text_witness :
  let req := upload [] in
  let resp :=
    mkResponse
      (jsonify [("error", PyStr "An error occurred: cannot identify image file")])
      500 in
  (result (view_function EP_generate_embedding req) = Ret resp
   ∧ status resp ≠ 200)
  ∧ ∃ msg,
      (body resp = jsonify [("error", PyStr msg)]
       ∨ body resp = jsonify [("error", PyStr msg); ("is_match", PyBool false)])
      ∧ ((msg ∈ fixed_messages
          ∧ events (view_function EP_generate_embedding req) = [])
         ∨ ∃ e prefix,
             result (try_block EP_generate_embedding req) = Raise e
             ∧ prefix ∈ message_prefixes
             ∧ msg = prefix +:+ exc_str e
             ∧ ∀ lines,
                 Stderr lines ∈ events (view_function EP_generate_embedding req)
                 ↔ status resp = 500 ∧ lines = format_exc e).
Proof.
  intros req resp. split; [split; [reflexivity|discriminate]|].
  apply (error_message_is_prefix_then_exception_text
           EP_generate_embedding req resp); [reflexivity|discriminate].
Defined.

Lemma later_same_libraries : same_libraries warm later.
Proof.
  split_and!.
  - intros b. cbn. repeat case_match; done.
  - intros im. done.
  - intros img. apply same_outcome_refl.
Qed.

(** Between those two calls the message of an error reply does change,
    with the buffer Pillow names. *)
Example error_text_differs_between_calls :
  result (generate_embedding (lib:=warm) (upload []))
    = Ret (mkResponse
             {[ "error" := PyStr "An error occurred: cannot identify image file" ]}
             500)
  ∧ result (generate_embedding (lib:=later) (upload []))
      = Ret (mkResponse
               {[ "error" :=
                    PyStr "An error occurred: cannot identify image file <_io.BytesIO object at 0x7f3a5c1b2e50>" ]}
               500).
Proof. split; vm_compute; reflexivity. Qed.

Lemma same_upload_same_embedding_witness :
  let r1 := upload portrait_png in
  let r2 := upload_with portrait_png "[0.25, 0.5]" in
  (same_libraries warm later
   ∧ files r1 !! "face" = files r2 !! "face")
  ∧ match result (generate_embedding (lib:=warm) r1),
          result (generate_embedding (lib:=later) r2) with
    | Ret resp1, Ret resp2 =>
        status resp1 = status resp2
        ∧ body resp1 !! "embedding" = body resp2 !! "embedding"
        ∧ (status resp1 = 200 → resp1 = resp2)
    | Raise e1, Raise e2 => exc_class e1 = exc_class e2
    | _, _ => False
    end
  ∧ ∀ b img obj others v,
      files r1 !! "face" = Some b →
      result (open_rgb_array (lib:=warm) b) = Ret img →
      @DeepFace_represent warm img MODEL_NAME true DETECTOR_BACKEND
        = Ret (obj :: others) →
      obj !! "embedding" = Some v →
      result (generate_embedding (lib:=warm) r1)
        = Ret (mkResponse {[ "embedding" := v ]} 200)
      ∧ result (generate_embedding (lib:=later) r2)
          = Ret (mkResponse {[ "embedding" := v ]} 200).
Proof.
  intros r1 r2. split; [split; [exact later_same_libraries|reflexivity]|].
  apply (same_upload_same_embedding warm later r1 r2 later_same_libraries).
  reflexivity.
Defined.

Lemma generate_embedding_returns_first_face_witness :
  let req := upload portrait_png in
  (files req !! "face" = Some portrait_png
   ∧ result (open_rgb_array portrait_png) = Ret portrait_rgb
   ∧ DeepFace_represent portrait_rgb MODEL_NAME true DETECTOR_BACKEND
       = Ret [embedding_obj first_face; embedding_obj second_face]
   ∧ embedding_obj first_face !! "embedding" = Some first_face)
  ∧ result (generate_embedding req) =
      Ret (mkResponse {[ "embedding" := first_face ]} 200).
Proof.
  intros req. split; [by split_and!|].
  apply (generate_embedding_returns_first_face req portrait_png portrait_rgb
           (embedding_obj first_face) [embedding_obj second_face] first_face);
    reflexivity.
Defined.

End OnFixtureComparison.

Section OnColdStart.
Import Fixture.
#[local] Existing Instance cold.

(** C7, refuted as stated: the preload fails, and the process still
    reaches [app.run] and answers a request. *)
Lemma failed_preload_still_serves :
  (∃ e, DeepFace_build_model MODEL_NAME = Raise e)
  ∧ stage startup = Serving
  ∧ is_Some (serve startup "/generate-embedding" (upload portrait_png))
  ∧ is_Some (serve startup "/compare-faces" (upload portrait_png)).
Proof. split_and!; [by eexists|reflexivity|by eexists|by eexists]. Qed.

Lemma startup_serves_once_preload_attempted_witness :
  (∀ e, DeepFace_build_model MODEL_NAME = Raise e →
        isinstance e Exception = true)
  ∧ stage startup = Serving
  ∧ url_map startup =
      <["/compare-faces" := EP_compare_faces]>
        (<["/generate-embedding" := EP_generate_embedding]> ∅)
  ∧ (∀ e, DeepFace_build_model MODEL_NAME = Raise e →
          Stdout ("Error loading model on startup: " +:+ exc_str e)
            ∈ console startup)
  ∧ (∀ p path req, reachable p → is_Some (serve p path req) →
       Called (C_build_model MODEL_NAME) ∈ console p).
Proof.
  assert (∀ e, DeepFace_build_model MODEL_NAME = Raise e →
               isinstance e Exception = true) as Hordinary.
  { intros e [= <-]. reflexivity. }
  split; [exact Hordinary|].
  exact (startup_serves_once_preload_attempted Hordinary).
Defined.

End OnColdStart.

(** ** Further properties of the handlers *)

(** Proves [expected_call] for the call picked out of a computed log. *)
Ltac expected_calls Hin :=
  repeat (apply elem_of_cons in Hin as [Hin'|Hin];
          [simplify_eq; cbn;
           repeat match goal with
                  | Hconv : Image_convert _ _ = Ret _ |- _ =>
                      apply Image_convert_mode in Hconv
                  end;
           try (split_and?; eauto; done)|]);
  try by apply elem_of_nil in Hin.

Section LibraryCalls.
Context {lib : Backend}.

Lemma handler_events ep req ev :
  ev ∈ events (view_function ep req) →
  ev ∈ events (try_block ep req) ∨ ∃ lines, ev = Stderr lines.
Proof.
  destruct ep; cbn [view_function try_block]; [|apply compare_faces_events].
  unfold generate_embedding, generate_embedding_except.
  rewrite events_try_except.
  destruct (result (generate_embedding_try req)) as [resp|e]; [by left|].
  destruct (isinstance e Exception); cbn;
    rewrite ?elem_of_app, ?list_elem_of_singleton; intuition eauto.
Qed.

Lemma try_block_calls ep req c :
  Called c ∈ events (try_block ep req) → expected_call ep req c.
Proof.
  destruct ep; cbn [try_block].
  - unfold generate_embedding_try, open_rgb_array. py_unfold.
    intros Hin. py_cases; expected_calls Hin.
  - destruct (files req !! "face") as [b|] eqn:Hface.
    + destruct (form req !! "stored_embedding") as [[|ch s]|] eqn:Hform.
      * rewrite (compare_faces_try_no_embedding req b) by auto.
        by intros ?%elem_of_nil.
      * rewrite (compare_faces_try_checked req b (String ch s)) by done.
        unfold verify_upload, open_rgb_array. py_unfold.
        intros Hin. py_cases; expected_calls Hin.
      * rewrite (compare_faces_try_no_embedding req b) by auto.
        by intros ?%elem_of_nil.
    + rewrite (compare_faces_try_no_face req) by done.
      by intros ?%elem_of_nil.
Qed.

(** X1: whatever a handler calls while answering a request is the
    upload being opened, a conversion to RGB, the stored embedding being
    parsed (on [/compare-faces]), or DeepFace being run on an RGB array
    with the module's model, detector and metric and with detection
    enforced: [represent] on [/generate-embedding] only, [verify] on
    [/compare-faces] only and on exactly what [json.loads] returned.  No
    handler base64-decodes or builds the model. *)
Theorem handlers_call_only_expected (ep : Endpoint) (req : Request) (c : Call) :
  Called c ∈ events (view_function ep req) → expected_call ep req c.
Proof.
  intros Hin. apply handler_events in Hin as [Hin|[lines ?]]; [|done].
  by apply try_block_calls.
Qed.

(** X2: when the upload cannot be decoded, the handler stops there: the
    only library calls of the request are the opening of the upload and,
    at most, its conversion; nothing is parsed and DeepFace is not run. *)
Theorem undecodable_upload_stops_the_handler
    (ep : Endpoint) (req : Request) (b : bytes) (e : PyExc) (c : Call) :
  files req !! "face" = Some b →
  result (open_rgb_array b) = Raise e →
  Called c ∈ events (view_function ep req) →
  c = C_Image_open b ∨ ∃ im, c = C_convert "RGB" im.
Proof.
  intros Hface Himg Hin.
  apply handler_events in Hin as [Hin|[lines ?]]; [|done].
  assert (Called c ∈ events (open_rgb_array b)) as Hopen.
  { destruct ep; cbn [try_block] in Hin.
    - unfold generate_embedding_try in Hin.
      by rewrite Hface, events_bind, Himg in Hin.
    - destruct (form req !! "stored_embedding") as [[|ch s]|] eqn:Hform.
      + rewrite (compare_faces_try_no_embedding req b) in Hin by auto.
        by apply elem_of_nil in Hin.
      + rewrite (compare_faces_try_checked req b (String ch s)) in Hin by done.
        unfold verify_upload in Hin. by rewrite events_bind, Himg in Hin.
      + rewrite (compare_faces_try_no_embedding req b) in Hin by auto.
        by apply elem_of_nil in Hin. }
  apply open_rgb_array_events in Hopen as [[= ->]|[im [= ->]]]; eauto.
Qed.

End LibraryCalls.

Section Replies.
Context {lib : Backend}.

(** X3: a reply has status 200, 400 or 500.  With 200 the body is the one
    key of the endpoint (["embedding"] or ["is_match"]) and holds no
    ["error"]; otherwise it holds an ["error"] message, no ["embedding"],
    and ["is_match"] is either absent or [false]. *)
Theorem reply_is_result_or_error (ep : Endpoint) (req : Request) (resp : Response) :
  result (view_function ep req) = Ret resp →
  (status resp = 200
   ∧ (∃ v, body resp = {[ success_key ep := v ]})
   ∧ body resp !! "error" = None)
  ∨ ((status resp = 400 ∨ status resp = 500)
     ∧ (∃ msg, body resp !! "error" = Some (PyStr msg))
     ∧ body resp !! "embedding" = None
     ∧ (body resp !! "is_match" = None
        ∨ body resp !! "is_match" = Some (PyBool false))).
Proof.
  intros Hres. destruct ep; cbn [view_function success_key] in *.
  - destruct (result (generate_embedding_try req)) as [resp'|e] eqn:Htry.
    + rewrite (generate_embedding_returned req resp') in Hres by done.
      rewrite Htry in Hres. injection Hres as ->.
      apply generate_embedding_try_returns in Htry
        as [[Hst [v Hbody]]|(_ & -> & _)].
      * left. rewrite Hbody. split_and!; [done|by exists v|done].
      * right. split_and!; [by left|by eexists|done|by left].
    + destruct (isinstance e Exception) eqn:Hexc.
      * rewrite (generate_embedding_caught req e) in Hres by done.
        injection Hres as <-. right.
        split_and!; [by right|by eexists|done|by left].
      * rewrite (generate_embedding_uncaught req e) in Hres by done.
        congruence.
  - destruct (result (compare_faces_try req)) as [resp'|e] eqn:Htry.
    + rewrite (compare_faces_returned req resp') in Hres by done.
      rewrite Htry in Hres. injection Hres as ->.
      destruct (files req !! "face") as [b|] eqn:Hface.
      * destruct (form req !! "stored_embedding") as [[|ch s]|] eqn:Hform.
        -- rewrite (compare_faces_try_no_embedding req b) in Htry by auto.
           injection Htry as <-. right.
           split_and!; [by left|by eexists|done|by left].
        -- rewrite (compare_faces_try_checked req b (String ch s)) in Htry
             by done.
           apply verify_upload_returns in Htry as [Hst [v Hbody]].
           left. rewrite Hbody. split_and!; [done|by exists v|done].
        -- rewrite (compare_faces_try_no_embedding req b) in Htry by auto.
           injection Htry as <-. right.
           split_and!; [by left|by eexists|done|by left].
      * rewrite (compare_faces_try_no_face req) in Htry by done.
        injection Htry as <-. right.
        split_and!; [by left|by eexists|done|by left].
    + destruct (isinstance e ValueError) eqn:Hvalue;
        [|destruct (isinstance e Exception) eqn:Hexc].
      * rewrite (compare_faces_caught_400 req e) in Hres by done.
        injection Hres as <-. right.
        split_and!; [by left|by eexists|done|by right].
      * rewrite (compare_faces_caught_500 req e) in Hres by done.
        injection Hres as <-. right.
        split_and!; [by right|by eexists|done|by right].
      * rewrite (compare_faces_uncaught req e) in Hres by done.
        congruence.
Qed.

Lemma ValueError_is_Exception e :
  isinstance e Exception = false → isinstance e ValueError = false.
Proof. destruct e as [cls msg frames]. by destruct cls. Qed.

(** X4: an exception leaves a handler only when it is not an
    [Exception] (a [KeyboardInterrupt], a [SystemExit]); it is then the
    exception the [try] block raised, and the handler has added nothing to
    the log, no traceback either. *)
Theorem handlers_reraise_only_non_exceptions
    (ep : Endpoint) (req : Request) (e : PyExc) :
  result (view_function ep req) = Raise e →
  isinstance e Exception = false
  ∧ view_function ep req = try_block ep req.
Proof.
  intros Hres.
  assert (result (try_block ep req) = Raise e
          ∧ isinstance e ValueError = false
          ∧ isinstance e Exception = false) as (Htry & Hvalue & Hexc).
  { destruct ep; cbn [view_function try_block] in *;
      unfold generate_embedding, generate_embedding_except,
        compare_faces, compare_faces_except in Hres;
      rewrite result_try_except in Hres.
    - destruct (result (generate_embedding_try req)) as [resp|e']; [done|].
      destruct (isinstance e' Exception) eqn:Hexc; [done|].
      injection Hres as <-. split_and!; [done| |done].
      by apply ValueError_is_Exception.
    - destruct (result (compare_faces_try req)) as [resp|e']; [done|].
      destruct (isinstance e' ValueError) eqn:Hvalue; [done|].
      destruct (isinstance e' Exception) eqn:Hexc; [done|].
      by injection Hres as <-. }
  split; [done|]. destruct ep; cbn [view_function try_block] in *.
  - by apply (generate_embedding_uncaught req e).
  - by apply (compare_faces_uncaught req e).
Qed.

(** X5: without a [face] file both endpoints reply 400 with their fixed
    message, whatever else the request holds, and call no library. *)
Theorem missing_face_is_rejected_first (ep : Endpoint) (req : Request) :
  files req !! "face" = None →
  view_function ep req =
    ([], Ret (mkResponse
                {[ "error" :=
                     PyStr (match ep with
                            | EP_generate_embedding => "No image file provided."
                            | EP_compare_faces =>
                                "No face image provided for comparison."
                            end) ]}
                400)).
Proof.
  intros Hface. destruct ep; cbn [view_function].
  - unfold generate_embedding, generate_embedding_try. by rewrite Hface.
  - unfold compare_faces. by rewrite (compare_faces_try_no_face req).
Qed.

(** X6: [/compare-faces] treats an empty [stored_embedding] field like a
    missing one: with a [face] file present it replies 400 with the fixed
    message and does not even open the upload. *)
Theorem empty_stored_embedding_counts_as_missing (req : Request) (b : bytes) :
  files req !! "face" = Some b →
  form req !! "stored_embedding" = None
  ∨ form req !! "stored_embedding" = Some "" →
  compare_faces req =
    ([], Ret (mkResponse {[ "error" := PyStr "No stored embedding provided." ]}
                400)).
Proof.
  intros Hface Hform. unfold compare_faces.
  by rewrite (compare_faces_try_no_embedding req b).
Qed.

End Replies.

Section Outcomes.
Context {lib : Backend}.

Lemma KeyError_is_no_ValueError msg frames :
  isinstance (mkExc KeyError msg frames) ValueError = false
  ∧ isinstance (mkExc KeyError msg frames) Exception = true.
Proof. by split. Qed.

(** X7: when the upload decodes, the stored embedding parses and
    [DeepFace.verify] returns a dict with a ["verified"] entry,
    [/compare-faces] replies 200 with that entry, unchanged, as
    ["is_match"] and nothing else; after the calls it prints the whole
    result once and writes nothing to stderr. *)
Theorem compare_faces_returns_verified
    (req : Request) (b : bytes) (img : ndarray) (s : string)
    (v : pyvalue) (d : pydict) (verified : pyvalue) :
  files req !! "face" = Some b →
  result (open_rgb_array b) = Ret img →
  form req !! "stored_embedding" = Some s → s ≠ "" →
  json_loads s = Ret v →
  DeepFace_verify img v MODEL_NAME DETECTOR_BACKEND DISTANCE_METRIC true = Ret d →
  d !! "verified" = Some verified →
  compare_faces req =
    (events (open_rgb_array b)
       ++ [Called (C_json_loads s);
           Called (C_verify img v MODEL_NAME DETECTOR_BACKEND DISTANCE_METRIC true);
           Stdout ("Comparison Result: " +:+ repr_dict d)],
     Ret (mkResponse {[ "is_match" := verified ]} 200)).
Proof.
  intros Hface Himg Hform Hs Hjson Hverify Hkey.
  unfold compare_faces. rewrite (compare_faces_try_checked req b s) by done.
  unfold verify_upload. destruct (open_rgb_array b) as [log r].
  cbn in Himg. subst r. py_unfold. rewrite Hjson, Hverify, Hkey. reflexivity.
Qed.

(** X8: when the dict [DeepFace.verify] returns has no ["verified"]
    entry, the lookup raises [KeyError], which is no [ValueError]:
    [/compare-faces] replies 500 with ["is_match": false], prints no
    result and writes the traceback to stderr. *)
Theorem compare_faces_without_verified_key
    (req : Request) (b : bytes) (img : ndarray) (s : string)
    (v : pyvalue) (d : pydict) :
  files req !! "face" = Some b →
  result (open_rgb_array b) = Ret img →
  form req !! "stored_embedding" = Some s → s ≠ "" →
  json_loads s = Ret v →
  DeepFace_verify img v MODEL_NAME DETECTOR_BACKEND DISTANCE_METRIC true = Ret d →
  d !! "verified" = None →
  compare_faces req =
    (events (open_rgb_array b)
       ++ [Called (C_json_loads s);
           Called (C_verify img v MODEL_NAME DETECTOR_BACKEND DISTANCE_METRIC true);
           Stderr (format_exc (mkExc KeyError "'verified'" []))],
     Ret (mkResponse
            {[ "error" :=
                 PyStr "An internal error occurred during comparison: 'verified'";
               "is_match" := PyBool false ]}
            500)).
Proof.
  intros Hface Himg Hform Hs Hjson Hverify Hkey.
  unfold compare_faces. rewrite (compare_faces_try_checked req b s) by done.
  unfold verify_upload. destruct (open_rgb_array b) as [log r].
  cbn in Himg. subst r. py_unfold. rewrite Hjson, Hverify, Hkey.
  unfold compare_faces_except.
  rewrite (proj1 (KeyError_is_no_ValueError _ _)),
    (proj2 (KeyError_is_no_ValueError _ _)).
  cbn. by rewrite <-app_assoc.
Qed.

(** X9: when the list [DeepFace.represent] returns is empty, or its first
    object has no ["embedding"] entry, [/generate-embedding] replies 500
    and the message is the text of the [IndexError] or of the
    [KeyError]. *)
Theorem generate_embedding_without_first_embedding
    (req : Request) (b : bytes) (img : ndarray) (objs : list pydict) :
  files req !! "face" = Some b →
  result (open_rgb_array b) = Ret img →
  DeepFace_represent img MODEL_NAME true DETECTOR_BACKEND = Ret objs →
  head objs ≫= (λ obj, obj !! "embedding") = None →
  result (generate_embedding req) =
    Ret (mkResponse
           {[ "error" :=
                PyStr ("An error occurred: "
                       +:+ match objs with
                           | [] => "list index out of range"
                           | _ => "'embedding'"
                           end) ]}
           500).
Proof.
  intros Hface Himg Hobjs Hnone.
  unfold generate_embedding. rewrite result_try_except.
  rewrite (generate_embedding_try_decoded req b img) by done.
  rewrite result_bind, result_call, Hobjs.
  destruct objs as [|obj rest]; [reflexivity|].
  cbn in Hnone. cbn. unfold dict_getitem. rewrite Hnone. reflexivity.
Qed.

End Outcomes.

Section Base64.
Context {lib : Backend}.

Lemma after_first_app sep header rest :
  after_first sep header = None →
  after_first sep (header +:+ String sep rest) = Some rest.
Proof.
  induction header as [|c header IH]; simpl.
  - by rewrite Ascii.eqb_refl.
  - destruct (Ascii.eqb c sep); [done|]. apply IH.
Qed.

Lemma prefix_app needle header rest :
  String.prefix needle header = true →
  String.prefix needle (header +:+ rest) = true.
Proof.
  revert header. induction needle as [|c needle IH]; intros header.
  - intros _. by destruct (header +:+ rest).
  - destruct header as [|c' header]; simpl; [discriminate|].
    destruct (ascii_dec c c'); [apply IH|discriminate].
Qed.

Lemma str_contains_cons needle c hay :
  str_contains needle (String c hay) =
    if String.prefix needle (String c hay) then true
    else str_contains needle hay.
Proof. reflexivity. Qed.

Lemma str_contains_app needle header rest :
  str_contains needle header = true →
  str_contains needle (header +:+ rest) = true.
Proof.
  induction header as [|c header IH].
  - destruct needle as [|c needle]; [|discriminate].
    intros _. by destruct rest.
  - change (String c header +:+ rest) with (String c (header +:+ rest)).
    rewrite !str_contains_cons.
    destruct (String.prefix needle (String c header)) eqn:Hprefix.
    + intros _.
      apply (prefix_app needle (String c header) rest) in Hprefix.
      change (String c header +:+ rest) with (String c (header +:+ rest))
        in Hprefix.
      by rewrite Hprefix.
    + intros Hin. rewrite (IH Hin).
      by destruct (String.prefix needle (String c (header +:+ rest))).
Qed.

(** X10: the base64 route ends where the upload route starts.  When the
    text base64-decodes to the bytes [b], [b64_to_numpy] gives what
    opening [b] as an upload gives, array or exception, both for the bare
    text and for the text behind a [data:image...] header and a comma
    (header and text holding no other comma). *)
Theorem base64_text_decodes_like_its_bytes
    (header payload : string) (b : bytes) :
  base64_b64decode payload = Ret b →
  after_first "," payload = None →
  (str_contains "data:image" payload = false →
     result (b64_to_numpy payload) = result (open_rgb_array b))
  ∧ (str_contains "data:image" header = true →
     after_first "," header = None →
     result (b64_to_numpy (header +:+ "," +:+ payload))
       = result (open_rgb_array b)).
Proof.
  intros Hdecode Hpayload.
  assert (result (decode_base64 payload) = result (open_rgb_array b)) as Hsame.
  { unfold decode_base64. by rewrite result_bind, result_call, Hdecode. }
  split.
  - intros Hbare. by rewrite b64_to_numpy_bare.
  - intros Hheader Hcomma.
    rewrite (b64_to_numpy_data_uri _ payload).
    + by rewrite (up_to_no_sep "," payload Hpayload).
    + by apply str_contains_app.
    + by apply (after_first_app "," header payload).
Qed.

(** X11: text that contains [data:image] but no comma makes
    [b64_to_numpy] raise [IndexError] before anything is decoded. *)
Theorem data_uri_without_comma_raises (text : string) :
  str_contains "data:image" text = true →
  after_first "," text = None →
  b64_to_numpy text =
    ([], Raise (mkExc IndexError "list index out of range" [])).
Proof.
  intros Huri Hnone. unfold b64_to_numpy, list_getitem.
  by rewrite Huri, str_split_second, Hnone.
Qed.

(** X12: [b64_to_numpy] catches nothing: when the base64 decoding of a
    bare text raises, so does [b64_to_numpy], with the same exception and
    without having opened any image. *)
Theorem malformed_base64_raises_before_opening (text : string) (e : PyExc) :
  str_contains "data:image" text = false →
  base64_b64decode text = Raise e →
  b64_to_numpy text = ([Called (C_b64decode text)], Raise e).
Proof.
  intros Hbare Hdecode. rewrite b64_to_numpy_bare by done.
  unfold decode_base64. py_unfold. by rewrite Hdecode.
Qed.

End Base64.

Section StartupStates.
Context {lib : Backend}.

Lemma calls_app log1 log2 : calls (log1 ++ log2) = calls log1 ++ calls log2.
Proof. unfold calls. apply omap_app. Qed.

Lemma preload_calls : calls (events preload) = [C_build_model MODEL_NAME].
Proof.
  unfold preload. py_unfold.
  destruct (DeepFace_build_model MODEL_NAME) as [[]|e]; cbn; [done|].
  by destruct (isinstance e Exception).
Qed.

(** X14: past the preload stage the console of the process shows exactly
    one library call, [DeepFace.build_model] on the configured model:
    the module body loads the model once, whether the load succeeds or
    not, and calls nothing else. *)
Theorem model_is_built_exactly_once (p : Process) :
  reachable p →
  stage p ≠ AtPreload →
  calls (console p) = [C_build_model MODEL_NAME].
Proof.
  intros Hreach.
  assert (p = fresh_process
          ∨ (stage p ≠ AtPreload
             ∧ calls (console p) = [C_build_model MODEL_NAME])) as Hinv.
  { induction Hreach as [|p p' Hreach IH Hstep]; [by left|]. right.
    unfold step in Hstep. destruct IH as [-> | [Hstage Hcalls]].
    - cbn in Hstep. pose proof preload_calls as Hpre.
      destruct preload as [log r]. injection Hstep as <-. cbn in *.
      split; [by destruct r|done].
    - destruct (stage p) eqn:Hp; [done|..]; simplify_eq; cbn; done. }
  destruct Hinv as [-> | [_ Hcalls]]; [done|]. by intros _.
Qed.

Lemma reachable_run n p : reachable p → reachable (run n p).
Proof.
  revert p. induction n as [|n IH]; intros p Hreach; [done|]. cbn.
  destruct (step p) as [p'|] eqn:Hstep; [|done].
  apply IH. by eapply reachable_step.
Qed.

(** X16: the console of the started process shows the line
    [Model loaded successfully.] exactly when [DeepFace.build_model]
    returned. *)
Theorem success_line_means_model_built :
  Stdout "Model loaded successfully." ∈ console startup
  ↔ ∃ model, DeepFace_build_model MODEL_NAME = Ret model.
Proof.
  rewrite startup_after_preload. unfold preload. py_unfold.
  destruct (DeepFace_build_model MODEL_NAME) as [[]|e]; cbn.
  - split; [by eexists|]. intros _. rewrite !elem_of_cons. auto.
  - split; [|by intros [? ?]]. intros Hin.
    destruct (isinstance e Exception); cbn in Hin; not_logged Hin.
Qed.

(** X15: when [DeepFace.build_model] raises something that is not an
    [Exception], the [except] clause does not catch it and the module body
    stops at the preload: the failure is not printed, no route is
    registered and no request is ever answered. *)
Theorem non_exception_at_preload_stops_startup (e : PyExc) :
  DeepFace_build_model MODEL_NAME = Raise e →
  isinstance e Exception = false →
  startup =
    mkProcess (Terminated e) ∅
      [Stdout "Loading face recognition model...";
       Called (C_build_model MODEL_NAME)]
  ∧ step startup = None
  ∧ ∀ path req, serve startup path req = None.
Proof.
  intros Hbuild Hexc.
  assert (preload =
            ([Stdout "Loading face recognition model...";
              Called (C_build_model MODEL_NAME)], Raise e)) as Hpre.
  { unfold preload. py_unfold. by rewrite Hbuild, Hexc. }
  assert (startup =
            mkProcess (Terminated e) ∅
              [Stdout "Loading face recognition model...";
               Called (C_build_model MODEL_NAME)]) as ->.
  { rewrite startup_after_preload, Hpre. done. }
  done.
Qed.

End StartupStates.

(** ** The further properties on concrete requests *)

Section FurtherOnFixture.
Import Fixture.

Lemma handlers_call_only_expected_witness :
  let req := upload_with portrait_png "[0.25, 0.5]" in
  let c := C_verify portrait_rgb first_face MODEL_NAME DETECTOR_BACKEND
             DISTANCE_METRIC true in
  Called c ∈ events (view_function (lib:=warm) EP_compare_faces req)
  ∧ expected_call (lib:=warm) EP_compare_faces req c.
Proof.
  intros req c.
  assert (Called c ∈ events (view_function (lib:=warm) EP_compare_faces req))
    as Hin.
  { run_log. rewrite !elem_of_cons. auto. }
  split; [exact Hin|].
  exact (handlers_call_only_expected (lib:=warm) EP_compare_faces req c Hin).
Defined.

Lemma undecodable_upload_stops_the_handler_witness :
  let req := upload_with [] "[0.25, 0.5]" in
  (files req !! "face" = Some []
   ∧ result (open_rgb_array (lib:=warm) []) = Raise cannot_identify
   ∧ Called (C_Image_open [])
       ∈ events (view_function (lib:=warm) EP_compare_faces req))
  ∧ (C_Image_open [] = C_Image_open []
     ∨ ∃ im, C_Image_open [] = C_convert "RGB" im).
Proof.
  intros req.
  assert (Called (C_Image_open [])
            ∈ events (view_function (lib:=warm) EP_compare_faces req)) as Hin.
  { run_log. rewrite !elem_of_cons. auto. }
  split; [by split_and!|].
  exact (undecodable_upload_stops_the_handler (lib:=warm) EP_compare_faces req
           [] cannot_identify (C_Image_open []) eq_refl eq_refl Hin).
Defined.

Lemma reply_is_result_or_error_witness :
  let req := upload portrait_png in
  let resp := mkResponse {[ "embedding" := first_face ]} 200 in
  result (view_function (lib:=warm) EP_generate_embedding req) = Ret resp
  ∧ ((status resp = 200
      ∧ (∃ v, body resp = {[ success_key EP_generate_embedding := v ]})
      ∧ body resp !! "error" = None)
     ∨ ((status resp = 400 ∨ status resp = 500)
        ∧ (∃ msg, body resp !! "error" = Some (PyStr msg))
        ∧ body resp !! "embedding" = None
        ∧ (body resp !! "is_match" = None
           ∨ body resp !! "is_match" = Some (PyBool false)))).
Proof.
  intros req resp. split; [reflexivity|].
  apply (reply_is_result_or_error (lib:=warm) EP_generate_embedding req resp).
  reflexivity.
Defined.

Lemma handlers_reraise_only_non_exceptions_witness :
  let req := upload portrait_png in
  let e := mkExc KeyboardInterrupt "" [] in
  result (view_function (lib:=interrupted) EP_generate_embedding req) = Raise e
  ∧ isinstance e Exception = false
  ∧ view_function (lib:=interrupted) EP_generate_embedding req
      = try_block (lib:=interrupted) EP_generate_embedding req.
Proof.
  intros req e. split; [reflexivity|].
  apply (handlers_reraise_only_non_exceptions (lib:=interrupted)
           EP_generate_embedding req e).
  reflexivity.
Defined.

Lemma missing_face_is_rejected_first_witness :
  let req := mkRequest ∅ {[ "stored_embedding" := "[0.25, 0.5]" ]} in
  files req !! "face" = None
  ∧ view_function (lib:=warm) EP_compare_faces req =
      ([], Ret (mkResponse
                  {[ "error" := PyStr "No face image provided for comparison." ]}
                  400)).
Proof.
  intros req. split; [reflexivity|].
  apply (missing_face_is_rejected_first (lib:=warm) EP_compare_faces req).
  reflexivity.
Defined.

Lemma empty_stored_embedding_counts_as_missing_witness :
  let req := upload_with portrait_png "" in
  (files req !! "face" = Some portrait_png
   ∧ (form req !! "stored_embedding" = None
      ∨ form req !! "stored_embedding" = Some ""))
  ∧ compare_faces (lib:=warm) req =
      ([], Ret (mkResponse {[ "error" := PyStr "No stored embedding provided." ]}
                  400)).
Proof.
  intros req. split; [split; [reflexivity|right; reflexivity]|].
  apply (empty_stored_embedding_counts_as_missing (lib:=warm) req portrait_png);
    [reflexivity|right; reflexivity].
Defined.

Lemma compare_faces_returns_verified_witness :
  let req := upload_with portrait_png "[0.25, 0.5]" in
  let d : pydict := {[ "verified" := PyBool true ]} in
  (files req !! "face" = Some portrait_png
   ∧ result (open_rgb_array (lib:=warm) portrait_png) = Ret portrait_rgb
   ∧ form req !! "stored_embedding" = Some "[0.25, 0.5]"
   ∧ "[0.25, 0.5]" ≠ ""
   ∧ json_loads (Backend:=warm) "[0.25, 0.5]" = Ret first_face
   ∧ DeepFace_verify (Backend:=warm) portrait_rgb first_face MODEL_NAME
       DETECTOR_BACKEND DISTANCE_METRIC true = Ret d
   ∧ d !! "verified" = Some (PyBool true))
  ∧ compare_faces (lib:=warm) req =
      (events (open_rgb_array (lib:=warm) portrait_png)
         ++ [Called (C_json_loads "[0.25, 0.5]");
             Called (C_verify portrait_rgb first_face MODEL_NAME
                       DETECTOR_BACKEND DISTANCE_METRIC true);
             Stdout ("Comparison Result: " +:+ repr_dict (Backend:=warm) d)],
       Ret (mkResponse {[ "is_match" := PyBool true ]} 200)).
Proof.
  intros req d. split; [by split_and!|].
  apply (compare_faces_returns_verified (lib:=warm) req portrait_png
           portrait_rgb "[0.25, 0.5]" first_face d (PyBool true));
    [reflexivity|reflexivity|reflexivity|discriminate
    |reflexivity|reflexivity|reflexivity].
Defined.

Lemma compare_faces_without_verified_key_witness :
  let req := upload_with portrait_png "[0.25, 0.5]" in
  (files req !! "face" = Some portrait_png
   ∧ result (open_rgb_array (lib:=degenerate) portrait_png) = Ret portrait_rgb
   ∧ form req !! "stored_embedding" = Some "[0.25, 0.5]"
   ∧ "[0.25, 0.5]" ≠ ""
   ∧ json_loads (Backend:=degenerate) "[0.25, 0.5]" = Ret first_face
   ∧ DeepFace_verify (Backend:=degenerate) portrait_rgb first_face MODEL_NAME
       DETECTOR_BACKEND DISTANCE_METRIC true = Ret ∅
   ∧ (∅ : pydict) !! "verified" = None)
  ∧ compare_faces (lib:=degenerate) req =
      (events (open_rgb_array (lib:=degenerate) portrait_png)
         ++ [Called (C_json_loads "[0.25, 0.5]");
             Called (C_verify portrait_rgb first_face MODEL_NAME
                       DETECTOR_BACKEND DISTANCE_METRIC true);
             Stderr (format_exc (mkExc KeyError "'verified'" []))],
       Ret (mkResponse
              {[ "error" :=
                   PyStr "An internal error occurred during comparison: 'verified'";
                 "is_match" := PyBool false ]}
              500)).
Proof.
  intros req. split; [by split_and!|].
  apply (compare_faces_without_verified_key (lib:=degenerate) req portrait_png
           portrait_rgb "[0.25, 0.5]" first_face ∅);
    [reflexivity|reflexivity|reflexivity|discriminate
    |reflexivity|reflexivity|reflexivity].
Defined.

Lemma generate_embedding_without_first_embedding_witness :
  let req := upload portrait_png in
  (files req !! "face" = Some portrait_png
   ∧ result (open_rgb_array (lib:=degenerate) portrait_png) = Ret portrait_rgb
   ∧ DeepFace_represent (Backend:=degenerate) portrait_rgb MODEL_NAME true
       DETECTOR_BACKEND = Ret []
   ∧ head ([] : list pydict) ≫= (λ obj, obj !! "embedding") = None)
  ∧ result (generate_embedding (lib:=degenerate) req) =
      Ret (mkResponse
             {[ "error" := PyStr "An error occurred: list index out of range" ]}
             500).
Proof.
  intros req. split; [by split_and!|].
  apply (generate_embedding_without_first_embedding (lib:=degenerate) req
           portrait_png portrait_rgb []); reflexivity.
Defined.

Lemma base64_text_decodes_like_its_bytes_witness :
  let header := "data:image/png;base64" in
  (base64_b64decode (Backend:=warm) "AAAA" = Ret [x00; x00; x00]
   ∧ after_first "," "AAAA" = None)
  ∧ (str_contains "data:image" "AAAA" = false →
       result (b64_to_numpy (lib:=warm) "AAAA")
         = result (open_rgb_array (lib:=warm) [x00; x00; x00]))
  ∧ (str_contains "data:image" header = true →
       after_first "," header = None →
       result (b64_to_numpy (lib:=warm) (header +:+ "," +:+ "AAAA"))
         = result (open_rgb_array (lib:=warm) [x00; x00; x00])).
Proof.
  intros header. split; [by split|].
  apply (base64_text_decodes_like_its_bytes (lib:=warm) header "AAAA"
           [x00; x00; x00]); reflexivity.
Defined.

Lemma data_uri_without_comma_raises_witness :
  (str_contains "data:image" "data:image/png;base64" = true
   ∧ after_first "," "data:image/png;base64" = None)
  ∧ b64_to_numpy (lib:=warm) "data:image/png;base64" =
      ([], Raise (mkExc IndexError "list index out of range" [])).
Proof.
  split; [by split|].
  apply (data_uri_without_comma_raises (lib:=warm) "data:image/png;base64");
    reflexivity.
Defined.

Lemma malformed_base64_raises_before_opening_witness :
  let e := mkExc binascii_Error "Incorrect padding" [] in
  (str_contains "data:image" "A" = false
   ∧ base64_b64decode (Backend:=warm) "A" = Raise e)
  ∧ b64_to_numpy (lib:=warm) "A" = ([Called (C_b64decode "A")], Raise e).
Proof.
  intros e. split; [by split|].
  apply (malformed_base64_raises_before_opening (lib:=warm) "A" e); reflexivity.
Defined.

Lemma model_is_built_exactly_once_witness :
  (reachable (lib:=cold) (startup (lib:=cold))
   ∧ stage (startup (lib:=cold)) ≠ AtPreload)
  ∧ calls (console (startup (lib:=cold))) = [C_build_model MODEL_NAME].
Proof.
  assert (reachable (lib:=cold) (startup (lib:=cold))) as Hreach.
  { apply reachable_run, reachable_fresh. }
  assert (stage (startup (lib:=cold)) ≠ AtPreload) as Hstage by discriminate.
  split; [by split|].
  exact (model_is_built_exactly_once (lib:=cold) (startup (lib:=cold))
           Hreach Hstage).
Defined.

Lemma non_exception_at_preload_stops_startup_witness :
  let e := mkExc SystemExit "1" [] in
  let exiting := backend (Raise e) in
  (DeepFace_build_model (Backend:=exiting) MODEL_NAME = Raise e
   ∧ isinstance e Exception = false)
  ∧ startup (lib:=exiting) =
      mkProcess (Terminated e) ∅
        [Stdout "Loading face recognition model...";
         Called (C_build_model MODEL_NAME)]
  ∧ step (lib:=exiting) (startup (lib:=exiting)) = None
  ∧ ∀ path req, serve (lib:=exiting) (startup (lib:=exiting)) path req = None.
Proof.
  intros e exiting. split; [by split|].
  apply (non_exception_at_preload_stops_startup (lib:=exiting) e); reflexivity.
Defined.

End FurtherOnFixture.
